(** * Equation builders, sample sets and result plotting of the PINN notebooks

    A shallow embedding of the code shown in
    [jupyter_notebook/spring_mass/Spring_Mass_Problem_Notebook.ipynb] and
    [jupyter_notebook/projectile/Getting_Started_Projectile.ipynb]:
    the symbolic residuals built by [SpringMass] and [ProjectileEquation],
    the numpy sample sets handed to the validators and constraints, and
    the cells that load [validator.npz] and plot it.

    Conventions of the embedding.
    - Where a property is about the shape of the arrays or about the
      formulas as functions of time, a Python [float] is modelled by the
      number it denotes (a rational or a real) and rounding is left
      out; where a property is about the entries the scripts compute,
      the arrays are binary64 (module [F64]), with the cosine and sine
      of the library as parameters.
    - A sympy expression is the tree the code writes; sympy rewrites
      it on the fly (it drops a factor 1, merges numeric coefficients)
      without changing its value or the unknowns it depends on, so the
      properties speak of values and of names, not of the shape of the
      tree.
    - A Python [dict] is an association list in insertion order.
    - The notebooks list the scripts in pieces; a name a listing uses
      without defining it (the symbol [t] of the projectile script, the
      base class of [SpringMass]) is read as the script defines it. *)

From Stdlib Require Import Reals QArith Qround ZArith List String Bool Lia Lra.
From Stdlib Require Import Qreals.
From Stdlib Require Floats Uint63.
Import ListNotations.

Local Open Scope string_scope.

(** ** Python values and exceptions *)

Module Py.

(** The values a caller can put in the coefficient tuples. *)
Inductive value : Type :=
| Str (s : string)
| Int (z : Z)
| Float (q : Q)
| Bool (b : bool)
| Complex (re im : Q)
| NpFloat64 (q : Q)
| None.

Inductive type_ : Type :=
| str | int | float | bool_ | complex | np_float64 | NoneType.

(** [type(v)]: exact class of the value ([bool] is not [int] here). *)
Definition type (v : value) : type_ :=
  match v with
  | Str _ => str
  | Int _ => int
  | Float _ => float
  | Bool _ => bool_
  | Complex _ _ => complex
  | NpFloat64 _ => np_float64
  | None => NoneType
  end.

Definition type_eqb (a b : type_) : bool :=
  match a, b with
  | str, str | int, int | float, float | bool_, bool_
  | complex, complex | np_float64, np_float64 | NoneType, NoneType => true
  | _, _ => false
  end.

(** [ty in tys] for a list of classes. *)
Definition type_in (ty : type_) (tys : list type_) : bool :=
  existsb (type_eqb ty) tys.

Inductive exn : Type :=
| IndexError
| TypeError
| AttributeError (name : string)
| KeyError (key : string)
| ValueError
| FileNotFoundError (path : string).

(** A computation that returns or raises. *)
Definition result (A : Type) : Type := (exn + A)%type.

Definition ret {A} (a : A) : result A := inr a.
Definition raise {A} (e : exn) : result A := inl e.
Definition bind {A B} (c : result A) (k : A -> result B) : result B :=
  match c with
  | inl e => inl e
  | inr a => k a
  end.

(** [xs[i]] on a tuple or list. *)
Definition getitem {A} (xs : list A) (i : nat) : result A :=
  match nth_error xs i with
  | Some x => ret x
  | Datatypes.None => raise IndexError
  end.

(** A [dict] in insertion order; [d[k]] raises [KeyError]. *)
Definition dict (V : Type) : Type := list (string * V).

Fixpoint get {V} (d : dict V) (k : string) : option V :=
  match d with
  | [] => Datatypes.None
  | (k', v) :: d' => if String.eqb k' k then Some v else get d' k
  end.

Definition subscript {V} (d : dict V) (k : string) : result V :=
  match get d k with
  | Some v => ret v
  | Datatypes.None => raise (KeyError k)
  end.

(** [d[k] = v] / [d.update({k: v})]: replaces in place or appends. *)
Fixpoint set {V} (d : dict V) (k : string) (v : V) : dict V :=
  match d with
  | [] => [(k, v)]
  | (k', v') :: d' =>
      if String.eqb k' k then (k', v) :: d' else (k', v') :: set d' k v
  end.

Definition keys {V} (d : dict V) : list string := map fst d.
Definition values {V} (d : dict V) : list V := map snd d.

End Py.

Declare Scope py_scope.
Delimit Scope py_scope with py.
Notation "x <- c ;; k" := (Py.bind c (fun x => k))
(at level 61, c at next level, right associativity) : py_scope.

(** ** Symbolic expressions (sympy) *)

Module Sym.

(** [sympy.Number(v)]: an [Integer] for an [int], a [Float] for a
    [float]. *)
Inductive number : Type :=
| Integer (z : Z)
| Float (q : Q).

(** Expressions in the single independent variable [t].
    [Func f] is [Function(f)(t)]; [Derivative f n] is
    [Derivative(f(t), (t, n))]. *)
Inductive expr : Type :=
| Number (n : number)
| Func (f : string)
| Derivative (f : string) (n : nat)
| Add (a b : expr)
| Sub (a b : expr)
| Mul (a b : expr).

(** [e.diff(t)]. *)
Fixpoint diff (e : expr) : expr :=
  match e with
  | Number _ => Number (Integer 0)
  | Func f => Derivative f 1
  | Derivative f n => Derivative f (S n)
  | Add a b => Add (diff a) (diff b)
  | Sub a b => Sub (diff a) (diff b)
  | Mul a b => Add (Mul (diff a) b) (Mul a (diff b))
  end.

(** [e.diff(t, n)]. *)
Fixpoint diff_n (e : expr) (n : nat) : expr :=
  match n with
  | O => e
  | S n' => diff (diff_n e n')
  end.

(** Names of the unknown functions occurring in an expression, left to
    right. *)
Fixpoint funcs (e : expr) : list string :=
  match e with
  | Number _ => []
  | Func f => [f]
  | Derivative f _ => [f]
  | Add a b | Sub a b | Mul a b => funcs a ++ funcs b
  end.

(** Numeric constants occurring in an expression, left to right. *)
Fixpoint numbers (e : expr) : list number :=
  match e with
  | Number n => [n]
  | Func _ | Derivative _ _ => []
  | Add a b | Sub a b | Mul a b => numbers a ++ numbers b
  end.

Definition is_number (e : expr) : bool :=
  match e with Number _ => true | _ => false end.

Definition is_func (e : expr) : bool :=
  match e with Func _ => true | _ => false end.

(** *** Meaning of an expression

    An environment gives every unknown function its value and the
    values of its derivatives of every order; [eval] reads an expression
    as a real function of [t]. *)

Definition env : Type := string -> nat -> R -> R.

Definition number_val (n : number) : R :=
  match n with
  | Integer z => IZR z
  | Float q => Q2R q
  end.

Fixpoint eval (rho : env) (e : expr) (t : R) : R :=
  match e with
  | Number n => number_val n
  | Func f => rho f O t
  | Derivative f n => rho f n t
  | Add a b => (eval rho a t + eval rho b t)%R
  | Sub a b => (eval rho a t - eval rho b t)%R
  | Mul a b => (eval rho a t * eval rho b t)%R
  end.

(** The entry of order [n + 1] is the derivative of the entry of order
    [n]. *)
Definition consistent (rho : env) : Prop :=
  forall f n t, derivable_pt_lim (rho f n) t (rho f (S n) t).

End Sym.

(** ** The spring-mass equations ([spring_mass_ode.py]) *)

Module SpringMassOde.

Import Sym.
Local Open Scope py_scope.

(** What a coefficient variable holds after the [if]/[elif] chain: a
    sympy expression when a branch was taken, the caller's value
    otherwise. *)
Inductive coef : Type :=
| Symbolic (e : expr)
| Plain (v : Py.value).

Definition Function_ (v : Py.value) : coef :=
  match v with
  | Py.Str s => Symbolic (Func s)
  | _ => Plain v
  end.

Definition Number_ (v : Py.value) : coef :=
  match v with
  | Py.Int z => Symbolic (Number (Integer z))
  | Py.Float q => Symbolic (Number (Float q))
  | _ => Plain v
  end.

(** [if type(k) is str: k = Function(k)(t)
     elif type(k) in [float, int]: k = Number(k)] *)
Definition convert (k : Py.value) : coef :=
  if Py.type_eqb (Py.type k) Py.str then Function_ k
  else if Py.type_in (Py.type k) [Py.float; Py.int] then Number_ k
  else Plain k.

Section Builder.

(** The symbolic library's coercion of a Python operand that reaches one
    of its operators unconverted: [Some e] when it accepts the operand
    as the expression [e], [None] when the operator raises
    [TypeError]. *)
Variable sympify : Py.value -> option expr.

(** The left operand of [c * e] as the library's operator sees it. *)
Definition operand (c : coef) : Py.result expr :=
  match c with
  | Symbolic a => Py.ret a
  | Plain v =>
      match sympify v with
      | Some a => Py.ret a
      | None => Py.raise Py.TypeError
      end
  end.

(** [c * e] with [e] a sympy expression. *)
Definition mul (c : coef) (e : expr) : Py.result expr :=
  a <- operand c ;;
  Py.ret (Mul a e).

(** [SpringMass.__init__(self, k, m)]; the result is [self.equations]. *)
Definition SpringMass (k m : list Py.value) : Py.result (Py.dict expr) :=
  k1 <- Py.getitem k 0 ;;
  k2 <- Py.getitem k 1 ;;
  k3 <- Py.getitem k 2 ;;
  k4 <- Py.getitem k 3 ;;
  m1 <- Py.getitem m 0 ;;
  m2 <- Py.getitem m 1 ;;
  m3 <- Py.getitem m 2 ;;
  let x1 := Func "x1" in
  let x2 := Func "x2" in
  let x3 := Func "x3" in
  let k1 := convert k1 in
  let k2 := convert k2 in
  let k3 := convert k3 in
  let k4 := convert k4 in
  let m1 := convert m1 in
  let m2 := convert m2 in
  let m3 := convert m3 in
  let equations := [] in
  a <- mul m1 (diff (diff x1)) ;;
  b <- mul k1 x1 ;;
  c <- mul k2 (Sub x2 x1) ;;
  let equations := Py.set equations "ode_x1" (Sub (Add a b) c) in
  a <- mul m2 (diff (diff x2)) ;;
  b <- mul k2 (Sub x2 x1) ;;
  c <- mul k3 (Sub x3 x2) ;;
  let equations := Py.set equations "ode_x2" (Sub (Add a b) c) in
  a <- mul m3 (diff (diff x3)) ;;
  b <- mul k3 (Sub x3 x2) ;;
  c <- mul k4 x3 ;;
  let equations := Py.set equations "ode_x3" (Add (Add a b) c) in
  Py.ret equations.

End Builder.

(** The three assignments to [self.equations], with the coefficient
    operands as parameters. *)
Definition residuals (K1 K2 K3 K4 M1 M2 M3 : expr) : Py.dict expr :=
  [("ode_x1", Sub (Add (Mul M1 (Derivative "x1" 2)) (Mul K1 (Func "x1")))
                  (Mul K2 (Sub (Func "x2") (Func "x1"))));
   ("ode_x2", Sub (Add (Mul M2 (Derivative "x2" 2))
                       (Mul K2 (Sub (Func "x2") (Func "x1"))))
                  (Mul K3 (Sub (Func "x3") (Func "x2"))));
   ("ode_x3", Add (Add (Mul M3 (Derivative "x3" 2))
                       (Mul K3 (Sub (Func "x3") (Func "x2"))))
                  (Mul K4 (Func "x3")))].

(** The part of sympy's coercion that the examples below use: a numpy
    float scalar is accepted as a [Float], Python numbers as numbers;
    a [bool] or [None] is not an expression and is rejected.  A complex
    number, which sympy accepts, has no counterpart among the
    expressions of this file: the examples never pass one, and this
    function says nothing about sympy on it. *)
Definition sympify_scalars (v : Py.value) : option expr :=
  match v with
  | Py.Int z => Some (Number (Integer z))
  | Py.Float q => Some (Number (Float q))
  | Py.NpFloat64 q => Some (Number (Float q))
  | _ => None
  end.

(** The two instantiations in the notebook. *)
Definition k_forward : list Py.value := [Py.Int 2; Py.Int 1; Py.Int 1; Py.Int 2].
Definition m_forward : list Py.value := [Py.Int 1; Py.Int 1; Py.Int 1].
Definition k_inverse : list Py.value := [Py.Int 2; Py.Int 1; Py.Int 1; Py.Str "k4"].
Definition m_inverse : list Py.value := [Py.Str "m1"; Py.Int 1; Py.Int 1].

End SpringMassOde.

(** ** The projectile equations ([projectile_eqn.py]) *)

Module ProjectileEqn.

Import Sym.

(** [ProjectileEquation.__init__(self)]; the result is
    [self.equations]. *)
Definition ProjectileEquation : Py.dict expr :=
  let x := Func "x" in
  let y := Func "y" in
  let equations := [] in
  let equations := Py.set equations "ode_x" (diff_n x 2) in
  let equations := Py.set equations "ode_y" (diff_n y 2) in
  equations.

End ProjectileEqn.

(** ** Arrays (numpy) *)

Module np.

Local Open Scope R_scope.

(** A one-dimensional array and an array of rows. *)
Definition vector : Type := list R.
Definition matrix : Type := list (list R).

(** [np.arange(start, stop, step)]: [ceil((stop - start) / step)]
    points [start + i * step].  The arguments are the decimal literals
    of the call. *)
Definition arange_len (start stop step : Q) : nat :=
  Z.to_nat (Qceiling ((stop - start) / step)).

Definition arange_pts (start stop step : Q) : list Q :=
  map (fun i => (start + inject_Z (Z.of_nat i) * step)%Q)
      (seq 0 (arange_len start stop step)).

Definition arange (start stop step : Q) : vector :=
  map Q2R (arange_pts start stop step).

(** [a.flatten()] of a one-dimensional array. *)
Definition flatten (a : vector) : vector := a.

(** [np.expand_dims(a, axis=-1)]: shape [(n,)] to [(n, 1)]. *)
Definition expand_dims (a : vector) : matrix := map (fun v => [v]) a.

(** Elementwise function of an array. *)
Definition ufunc (f : R -> R) (a : matrix) : matrix := map (map f) a.

(** [c * a], [np.cos(a)], [a ** 2], [np.full_like(a, c)]. *)
Definition scale (c : R) (a : matrix) : matrix := ufunc (Rmult c) a.
Definition cos (a : matrix) : matrix := ufunc Rtrigo_def.cos a.
Definition square (a : matrix) : matrix := ufunc (fun v => v ^ 2) a.
Definition full_like (a : matrix) (c : R) : matrix := ufunc (fun _ => c) a.

(** Elementwise operation of two arrays of one shape (every pair of
    operands in the code has the shape of the same grid). *)
Fixpoint zip_with {A B C} (f : A -> B -> C) (a : list A) (b : list B) : list C :=
  match a, b with
  | x :: a', y :: b' => f x y :: zip_with f a' b'
  | _, _ => []
  end.

Definition binop (f : R -> R -> R) (a b : matrix) : matrix :=
  zip_with (zip_with f) a b.

Definition add : matrix -> matrix -> matrix := binop Rplus.
Definition sub : matrix -> matrix -> matrix := binop Rminus.

(** Outer length of an array: [a.shape[0]]. *)
Definition rows (a : matrix) : nat := List.length a.

End np.

(** ** Sample sets of the two solver scripts *)

Module Samples.

Local Open Scope R_scope.

(** A validator or data constraint built from numpy arrays. *)
Record numpy_set : Type := {
  invar : Py.dict np.matrix;
  outvar : Py.dict np.matrix
}.

(** A parameter of a sampled constraint: pinned to one value, or
    ranging over an interval. *)
Inductive param : Type :=
| Pinned (c : R)
| Interval (lo hi : R).

(** The arguments of a [PointwiseBoundaryConstraint]. *)
Record boundary_constraint : Type := {
  targets : Py.dict R;
  batch_size : nat;
  parameterization : Py.dict param
}.

(** *** [projectile.py] *)

Definition v_o : R := 40.0.
Definition theta : R := PI / 3.
Definition projectile_time_range : Py.dict param := [("t", Interval 0.0 5.0)].

Definition projectile_IC (initial_x : nat) : boundary_constraint :=
  {| targets := [("x", 0.0); ("y", 0.0);
                 ("x__t", v_o * Rtrigo_def.cos theta);
                 ("y__t", v_o * sin theta)];
     batch_size := initial_x;
     parameterization := [("t", Pinned 0.0)] |}.

Definition projectile_interior (interior : nat) : boundary_constraint :=
  {| targets := [("ode_x", 0.0); ("ode_y", - 9.81)];
     batch_size := interior;
     parameterization := projectile_time_range |}.

Definition delta_T : Q := 0.01%Q.
Definition t_val : np.vector := np.arange 0 5 delta_T.
Definition T_val : np.matrix := np.expand_dims (np.flatten t_val).
Definition X_val : np.matrix := np.scale (v_o * Rtrigo_def.cos theta) T_val.
Definition Y_val : np.matrix :=
  np.sub (np.scale (v_o * sin theta) T_val)
         (np.scale (0.5 * 9.81) (np.square T_val)).

Definition projectile_validator : numpy_set :=
  {| invar := [("t", T_val)];
     outvar := [("x", X_val); ("y", Y_val)] |}.

(** *** [spring_mass_solver.py] and [spring_mass_inverse.py] *)

Definition t_max : Q := 10.0%Q.

Definition spring_IC (IC : nat) : boundary_constraint :=
  {| targets := [("x1", 1.0); ("x2", 0); ("x3", 0);
                 ("x1__t", 0); ("x2__t", 0); ("x3__t", 0)];
     batch_size := IC;
     parameterization := [("t", Pinned 0)] |}.

Definition spring_interior (interior : nat) : boundary_constraint :=
  {| targets := [("ode_x1", 0.0); ("ode_x2", 0.0); ("ode_x3", 0.0)];
     batch_size := interior;
     parameterization := [("t", Interval 0 (Q2R t_max))] |}.

(** The dictionary literal [outvar_numpy] shared by the two scripts. *)
Definition analytic_outvar (t : np.matrix) : Py.dict np.matrix :=
  [("x1", np.add (np.add (np.scale (1 / 6) (np.cos t))
                         (np.scale (1 / 2) (np.cos (np.scale (sqrt 3) t))))
                 (np.scale (1 / 3) (np.cos (np.scale 2 t))));
   ("x2", np.sub (np.add (np.scale (2 / 6) (np.cos t))
                         (np.scale (0 / 2) (np.cos (np.scale (sqrt 3) t))))
                 (np.scale (1 / 3) (np.cos (np.scale 2 t))));
   ("x3", np.add (np.sub (np.scale (1 / 6) (np.cos t))
                         (np.scale (1 / 2) (np.cos (np.scale (sqrt 3) t))))
                 (np.scale (1 / 3) (np.cos (np.scale 2 t))))].

Definition forward_t : np.matrix :=
  let deltaT : Q := 0.001%Q in
  let t := np.arange 0 t_max deltaT in
  np.expand_dims t.

Definition spring_validator : numpy_set :=
  let t := forward_t in
  {| invar := [("t", t)];
     outvar := analytic_outvar t |}.

Definition inverse_t : np.matrix :=
  let deltaT : Q := 0.01%Q in
  let t := np.arange 0 t_max deltaT in
  np.expand_dims t.

Definition spring_data : numpy_set :=
  let t := inverse_t in
  let invar_numpy := [("t", t)] in
  let outvar_numpy := analytic_outvar t in
  let outvar_numpy := Py.set outvar_numpy "ode_x1" (np.full_like t 0) in
  let outvar_numpy := Py.set outvar_numpy "ode_x2" (np.full_like t 0) in
  let outvar_numpy := Py.set outvar_numpy "ode_x3" (np.full_like t 0) in
  {| invar := invar_numpy; outvar := outvar_numpy |}.

(** Modelled from the spec: the point sampler of the training
    framework, which is not part of this repository.  The spec says an
    initial or boundary set has its input fixed at one value of the
    independent variable and an interior set ranges over an interval;
    [u] supplies the draws in the unit interval. *)
Definition sample_param (p : param) (u : nat -> R) (n : nat) : list R :=
  match p with
  | Pinned c => repeat c n
  | Interval lo hi => map (fun i => lo + (hi - lo) * u i) (seq 0 n)
  end.

(** Modelled from the spec: the sampled input of a constraint, one
    array of [batch_size] rows per parameter. *)
Definition sample_inputs (c : boundary_constraint) (u : nat -> R)
  : Py.dict (list R) :=
  map (fun kp => (fst kp, sample_param (snd kp) u (batch_size c)))
      (parameterization c).

End Samples.

(** ** The arrays as the scripts compute them (binary64) *)

Module F64.

Import PrimFloat FloatOps SpecFloat.
Local Open Scope float_scope.
#[local] Set Warnings "-inexact-float".

Definition vector : Type := list float.
Definition matrix : Type := list (list float).

(** The ceiling of a float as a count; nothing to count for a negative
    number, a zero or a NaN. *)
Definition ceil_nat (x : float) : nat :=
  match Prim2SF x with
  | S754_finite false m e =>
      Z.to_nat (if (0 <=? e)%Z then Z.pos m * 2 ^ e
                else - ((- Z.pos m) / 2 ^ (- e)))%Z
  | _ => O
  end.

Definition of_nat (i : nat) : float :=
  of_uint63 (Uint63.of_Z (Z.of_nat i)).

(** [np.arange(start, stop, step)] on floats:
    [ceil((stop - start) / step)] points; the first two are [start] and
    [start + step], the others [start + i * delta] with [delta] the
    difference of the first two. *)
Definition arange_len (start stop step : float) : nat :=
  ceil_nat ((stop - start) / step).

Definition arange_item (start step : float) (i : nat) : float :=
  match i with
  | O => start
  | S O => start + step
  | _ => start + of_nat i * ((start + step) - start)
  end.

Definition arange (start stop step : float) : vector :=
  map (arange_item start step) (seq 0 (arange_len start stop step)).

Definition flatten (a : vector) : vector := a.
Definition expand_dims (a : vector) : matrix := map (fun v => [v]) a.
Definition ufunc (f : float -> float) (a : matrix) : matrix := map (map f) a.
Definition scale (c : float) (a : matrix) : matrix := ufunc (mul c) a.
Definition square (a : matrix) : matrix := ufunc (fun v => v * v) a.
Definition full_like (a : matrix) (c : float) : matrix := ufunc (fun _ => c) a.
Definition binop (f : float -> float -> float) (a b : matrix) : matrix :=
  np.zip_with (np.zip_with f) a b.
Definition add : matrix -> matrix -> matrix := binop PrimFloat.add.
Definition sub : matrix -> matrix -> matrix := binop PrimFloat.sub.

Record numpy_set : Type := {
  invar : Py.dict matrix;
  outvar : Py.dict matrix
}.

(** [np.pi]. *)
Definition pi : float := 3.141592653589793.

Section Library.

(** The cosine and the sine of the numerical library. *)
Variable np_cos np_sin : float -> float.

Definition cos (a : matrix) : matrix := ufunc np_cos a.

(** *** [projectile.py] *)

Definition v_o : float := 40.0.
Definition theta : float := pi / 3.
Definition delta_T : float := 0.01.
Definition t_val : vector := arange 0 5 delta_T.
Definition T_val : matrix := expand_dims (flatten t_val).
Definition X_val : matrix := scale (v_o * np_cos theta) T_val.
Definition Y_val : matrix :=
  sub (scale (v_o * np_sin theta) T_val)
      (scale (0.5 * 9.81) (square T_val)).

Definition projectile_validator : numpy_set :=
  {| invar := [("t", T_val)];
     outvar := [("x", X_val); ("y", Y_val)] |}.

(** *** [spring_mass_solver.py] and [spring_mass_inverse.py] *)

Definition t_max : float := 10.0.

Definition analytic_outvar (t : matrix) : Py.dict matrix :=
  [("x1", add (add (scale (1 / 6) (cos t))
                   (scale (1 / 2) (cos (scale (sqrt 3) t))))
              (scale (1 / 3) (cos (scale 2 t))));
   ("x2", sub (add (scale (2 / 6) (cos t))
                   (scale (0 / 2) (cos (scale (sqrt 3) t))))
              (scale (1 / 3) (cos (scale 2 t))));
   ("x3", add (sub (scale (1 / 6) (cos t))
                   (scale (1 / 2) (cos (scale (sqrt 3) t))))
              (scale (1 / 3) (cos (scale 2 t))))].

Definition forward_t : matrix :=
  let deltaT := 0.001 in
  let t := arange 0 t_max deltaT in
  expand_dims t.

Definition spring_validator : numpy_set :=
  let t := forward_t in
  {| invar := [("t", t)];
     outvar := analytic_outvar t |}.

Definition inverse_t : matrix :=
  let deltaT := 0.01 in
  let t := arange 0 t_max deltaT in
  expand_dims t.

Definition spring_data : numpy_set :=
  let t := inverse_t in
  let invar_numpy := [("t", t)] in
  let outvar_numpy := analytic_outvar t in
  let outvar_numpy := Py.set outvar_numpy "ode_x1" (full_like t 0) in
  let outvar_numpy := Py.set outvar_numpy "ode_x2" (full_like t 0) in
  let outvar_numpy := Py.set outvar_numpy "ode_x3" (full_like t 0) in
  {| invar := invar_numpy; outvar := outvar_numpy |}.

End Library.

(** The cosine where its value is fixed, [cos(0) = 1]; a NaN stands for
    the values this embedding leaves open. *)
Definition cos_at_zero (x : float) : float :=
  if x =? 0 then 1 else nan.

(** The first row of a named array. *)
Definition first_row (d : Py.dict matrix) (name : string) : option (list float) :=
  match Py.get d name with
  | Some a => nth_error a 0
  | None => None
  end.

End F64.

(** ** The plotting cells of the two notebooks *)

Module Plots.

Local Open Scope nat_scope.

(** A stored array, of one or two dimensions, with its shape: [n]
    entries, or [n] rows of [c] entries.  The entries are carried as
    they are stored; a binary64 value holds every float32 and float64
    entry.  Only the items inside the shape are part of the array. *)
Inductive ndarray : Type :=
| Array1 (n : nat) (item : nat -> PrimFloat.float)
| Array2 (n c : nat) (item : nat -> nat -> PrimFloat.float).

(** [a.shape[0]]. *)
Definition shape0 (a : ndarray) : nat :=
  match a with
  | Array1 n _ => n
  | Array2 n _ _ => n
  end.

(** [a[:, 0]]: too many indices for one dimension, and no column [0]
    in an array without columns. *)
Definition column0 (a : ndarray) : Py.result ndarray :=
  match a with
  | Array1 _ _ => Py.raise Py.IndexError
  | Array2 n c item =>
      if Nat.eqb c 0 then Py.raise Py.IndexError
      else Py.ret (Array1 n (fun i => item i 0))
  end.

(** What is stored on disk: an [.npz] archive maps member names to
    objects; the validator stores one object, a dictionary of arrays.
    Paths are relative to the working directory. *)
Definition bundle : Type := Py.dict ndarray.
Definition npz : Type := Py.dict bundle.
Definition files : Type := string -> option npz.

(** A leading [./] names the same file. *)
Definition normpath (p : string) : string :=
  if String.prefix "./" p then String.substring 2 (String.length p - 2) p
  else p.

(** [np.load(path, allow_pickle=True)]. *)
Definition load (fs : files) (path : string) : Py.result npz :=
  match fs (normpath path) with
  | Some z => Py.ret z
  | None => Py.raise (Py.FileNotFoundError path)
  end.

(** [z.f.name]. *)
Definition member (z : npz) (name : string) : Py.result bundle :=
  match Py.get z name with
  | Some b => Py.ret b
  | None => Py.raise (Py.AttributeError name)
  end.

(** [np.atleast_1d(obj)[0]] of a single stored object. *)
Definition atleast_1d_0 (b : bundle) : bundle := b.

(** *** The state of [matplotlib.pyplot] *)

(** A drawn line: its points, format string and label. *)
Record line : Type := {
  xdata : list PrimFloat.float;
  ydata : list PrimFloat.float;
  fmt : string;
  label : string
}.

Record axes : Type := {
  index : nat;
  lines : list line;
  legend : bool
}.

Record pyplot : Type := {
  figure_axes : list axes;
  current : option nat;
  saved : list string
}.

(** No figure yet, as at the start of a cell under
    [%matplotlib inline]. *)
Definition fresh : pyplot :=
  {| figure_axes := []; current := None; saved := [] |}.

(** [plt.figure(...)]: a new, empty current figure. *)
Definition figure (p : pyplot) : pyplot :=
  {| figure_axes := []; current := None; saved := saved p |}.

Definition has_axes (i : nat) (p : pyplot) : bool :=
  existsb (fun a => Nat.eqb (index a) i) (figure_axes p).

(** [plt.subplot(nrows, ncols, i)]: select axes [i], creating it when
    the figure does not have it. *)
Definition subplot (nrows ncols i : nat) (p : pyplot) : pyplot :=
  {| figure_axes :=
       if has_axes i p then figure_axes p
       else figure_axes p ++ [{| index := i; lines := []; legend := false |}];
     current := Some i;
     saved := saved p |}.

Definition on_axes (i : nat) (f : axes -> axes) (p : pyplot) : pyplot :=
  {| figure_axes :=
       map (fun a => if Nat.eqb (index a) i then f a else a) (figure_axes p);
     current := current p;
     saved := saved p |}.

(** The current axes, created as the only one of the figure when there
    is none. *)
Definition gca (p : pyplot) : nat * pyplot :=
  match current p with
  | Some i => (i, p)
  | None => (1, subplot 1 1 1 p)
  end.

(** [plt.plot(x, y, fmt, label=label)] reads both arguments as arrays
    of columns, a one-dimensional array being one column (matplotlib
    3.3 and later). *)
Definition ncols (a : ndarray) : nat :=
  match a with
  | Array1 _ _ => 1
  | Array2 _ c _ => c
  end.

Definition col (a : ndarray) (j : nat) : list PrimFloat.float :=
  match a with
  | Array1 n item => map item (seq 0 n)
  | Array2 n _ item => map (fun i => item i j) (seq 0 n)
  end.

(** The lines of one call: none is made when the first dimensions
    differ or when both arguments have several columns but not equally
    many; otherwise one line per column of the wider argument, the
    columns of the other being reused in turn. *)
Definition plot_args (x y : ndarray) (fmt label : string)
  : Py.result (list line) :=
  if negb (Nat.eqb (shape0 x) (shape0 y)) then Py.raise Py.ValueError
  else if (Nat.ltb 1 (ncols x) && Nat.ltb 1 (ncols y)
           && negb (Nat.eqb (ncols x) (ncols y)))%bool
       then Py.raise Py.ValueError
  else if (Nat.eqb (ncols x) 0 || Nat.eqb (ncols y) 0)%bool then Py.ret []
  else Py.ret (map (fun j => {| xdata := col x (j mod ncols x);
                                ydata := col y (j mod ncols y);
                                fmt := fmt; label := label |})
                   (seq 0 (Nat.max (ncols x) (ncols y)))).

Definition add_lines (ls : list line) (p : pyplot) : pyplot :=
  let (i, p) := gca p in
  on_axes i (fun a => {| index := index a;
                         lines := lines a ++ ls;
                         legend := legend a |}) p.

(** [plt.legend()]. *)
Definition show_legend (p : pyplot) : pyplot :=
  let (i, p) := gca p in
  on_axes i (fun a => {| index := index a; lines := lines a;
                         legend := true |}) p.

(** [plt.savefig(name)]. *)
Definition savefig (name : string) (p : pyplot) : pyplot :=
  {| figure_axes := figure_axes p; current := current p;
     saved := saved p ++ [name] |}.

(** *** A cell: statements over the pyplot state that may raise *)

Definition cell (A : Type) : Type := pyplot -> Py.result A * pyplot.

(** [plt.plot] takes the current axes, creating them when there are
    none, before it looks at its arguments. *)
Definition plot (x y : ndarray) (fmt label : string) : cell unit :=
  fun p =>
    match plot_args x y fmt label with
    | inl e => (inl e, snd (gca p))
    | inr ls => (inr tt, add_lines ls p)
    end.

Definition lift {A} (c : Py.result A) : cell A := fun p => (c, p).
Definition draw (f : pyplot -> pyplot) : cell unit :=
  fun p => (Py.ret tt, f p).
Definition seq_cell {A B} (c : cell A) (k : A -> cell B) : cell B :=
  fun p =>
    match c p with
    | (inl e, p') => (inl e, p')
    | (inr a, p') => k a p'
    end.

Declare Scope cell_scope.
Delimit Scope cell_scope with cell.
Notation "x <- c ;; k" := (seq_cell c (fun x => k))
  (at level 61, c at next level, right associativity) : cell_scope.
Notation "c ;;; k" := (seq_cell c (fun _ => k))
  (at level 61, right associativity) : cell_scope.

Local Open Scope cell_scope.

(** [d[key][:, 0]]. *)
Definition col0 (d : bundle) (key : string) : cell ndarray :=
  lift (Py.bind (Py.subscript d key) column0).

(** [d[key]]. *)
Definition whole (d : bundle) (key : string) : cell ndarray :=
  lift (Py.subscript d key).

(** The plotting cell of [Getting_Started_Projectile.ipynb]. *)
Definition projectile_cell (fs : files) : cell unit :=
  draw figure ;;;
  let network_dir := "./outputs/projectile/validators/" in
  data_1 <- lift (load fs (network_dir ++ "validator.npz")) ;;
  data_1 <- lift (member data_1 "arr_0") ;;
  let data_1 := atleast_1d_0 data_1 in
  draw (subplot 1 2 1) ;;;
  x <- col0 data_1 "t" ;;
  y <- col0 data_1 "pred_x" ;;
  plot x y "--" "x_pred" ;;;
  x <- col0 data_1 "t" ;;
  y <- col0 data_1 "true_x" ;;
  plot x y "" "x_true" ;;;
  draw show_legend ;;;
  draw (subplot 1 2 2) ;;;
  x <- col0 data_1 "t" ;;
  y <- col0 data_1 "pred_y" ;;
  plot x y "--" "y_pred" ;;;
  x <- col0 data_1 "t" ;;
  y <- col0 data_1 "true_y" ;;
  plot x y "" "y_true" ;;;
  draw show_legend ;;;
  draw (savefig "prediction").

(** The plotting cell of [Spring_Mass_Problem_Notebook.ipynb]. *)
Definition spring_cell (fs : files) : cell unit :=
  let base_dir := "outputs/spring_mass_solver/validators/" in
  data <- lift (load fs (base_dir ++ "validator.npz")) ;;
  data <- lift (member data "arr_0") ;;
  let data := atleast_1d_0 data in
  x <- whole data "t" ;; y <- whole data "true_x1" ;;
  plot x y "" "True x1" ;;;
  x <- whole data "t" ;; y <- whole data "true_x2" ;;
  plot x y "" "True x2" ;;;
  x <- whole data "t" ;; y <- whole data "true_x3" ;;
  plot x y "" "True x3" ;;;
  x <- whole data "t" ;; y <- whole data "pred_x1" ;;
  plot x y "" "Pred x1" ;;;
  x <- whole data "t" ;; y <- whole data "pred_x2" ;;
  plot x y "" "Pred x2" ;;;
  x <- whole data "t" ;; y <- whole data "pred_x3" ;;
  plot x y "" "Pred x3" ;;;
  draw show_legend ;;;
  draw (savefig "comparison_spring_mass.png").

End Plots.

(** ** What the notebooks state about the equations and their solution *)

Module Stated.

Local Open Scope R_scope.

(** The spring-mass model as the problem description gives it:
    [m1 x1'' = -k1 x1 + k2 (x2 - x1)], and so on. *)
Definition governing_1 (m1 k1 k2 x1 x2 x1'' : R) : Prop :=
  m1 * x1'' = - k1 * x1 + k2 * (x2 - x1).
Definition governing_2 (m2 k2 k3 x1 x2 x3 x2'' : R) : Prop :=
  m2 * x2'' = - k2 * (x2 - x1) + k3 * (x3 - x2).
Definition governing_3 (m3 k3 k4 x2 x3 x3'' : R) : Prop :=
  m3 * x3'' = - k3 * (x3 - x2) - k4 * x3.

(** The projectile model: [x'' = 0], [y'' = g]. *)
Definition projectile_x (x'' : R) : Prop := x'' = 0.
Definition projectile_y (g y'' : R) : Prop := y'' = g.

(** Derivative of order [n] of [t |-> cos (w t)]. *)
Definition harmonic (w : R) (n : nat) (t : R) : R :=
  w ^ n * cos (w * t + INR n * (PI / 2)).

(** The closed-form solution of the forward problem, with its
    derivatives of every order. *)
Definition x1 (n : nat) (t : R) : R :=
  1 / 6 * harmonic 1 n t + 1 / 2 * harmonic (sqrt 3) n t
  + 1 / 3 * harmonic 2 n t.
Definition x2 (n : nat) (t : R) : R :=
  2 / 6 * harmonic 1 n t - 1 / 3 * harmonic 2 n t.
Definition x3 (n : nat) (t : R) : R :=
  1 / 6 * harmonic 1 n t - 1 / 2 * harmonic (sqrt 3) n t
  + 1 / 3 * harmonic 2 n t.

Definition solution : Sym.env :=
  fun f =>
    if String.eqb f "x1" then x1
    else if String.eqb f "x2" then x2
    else if String.eqb f "x3" then x3
    else fun _ _ => 0.

(** The contract of the equation builder: a number is a constant, a
    name is an unknown function of [t]. *)
Definition symbol_of (c : Py.value) : option Sym.expr :=
  match c with
  | Py.Str s => Some (Sym.Func s)
  | Py.Int z => Some (Sym.Number (Sym.Integer z))
  | Py.Float q => Some (Sym.Number (Sym.Float q))
  | _ => None
  end.

Definition numeric (c : Py.value) : Prop :=
  Py.type c = Py.int \/ Py.type c = Py.float.
Definition named (c : Py.value) : Prop := Py.type c = Py.str.

(** An integer constant, and the test for the three displacements. *)
Definition const (z : Z) : Sym.expr := Sym.Number (Sym.Integer z).

Definition is_displacement (f : string) : bool :=
  existsb (String.eqb f) ["x1"; "x2"; "x3"].

(** Unknown functions of a whole equation dictionary. *)
Definition all_funcs (eqs : Py.dict Sym.expr) : list string :=
  flat_map Sym.funcs (Py.values eqs).

(** How one coefficient [c] shows in its operand [K]: as the stated
    symbol, a constant exactly when [c] is a number and an unknown
    function exactly when [c] is a name. *)
Definition shows_as (c : Py.value) (K : Sym.expr) : Prop :=
  symbol_of c = Some K /\
  (numeric c -> Sym.is_number K = true /\ Sym.is_func K = false) /\
  (named c -> Sym.is_func K = true /\ Sym.is_number K = false).

(** The arrays a validator writes for the dependent variables [vars]:
    [t], [pred_v] and [true_v] for each, all of shape [(n, 1)] for one
    [n]. *)
Definition bundle_keys (vars : list string) : list string :=
  "t" :: map (fun v => "pred_" ++ v) vars ++ map (fun v => "true_" ++ v) vars.

Definition validator_bundle (n : nat) (vars : list string) (b : Plots.bundle)
  : Prop :=
  forall key, In key (bundle_keys vars) ->
    exists item, Py.get b key = Some (Plots.Array2 n 1 item).

(** Two wider classes of bundles: the arrays have [n] rows of at least
    one entry; the arrays have [n] entries or [n] rows of one entry. *)
Definition columns (n : nat) (vars : list string) (b : Plots.bundle) : Prop :=
  forall key, In key (bundle_keys vars) ->
    exists c item, Py.get b key = Some (Plots.Array2 n (S c) item).

Definition single_curves (n : nat) (vars : list string) (b : Plots.bundle)
  : Prop :=
  forall key, In key (bundle_keys vars) ->
    exists a, Py.get b key = Some a /\
              Plots.shape0 a = n /\ Plots.ncols a = 1%nat.

(** The values of a dependent variable over the samples: the first
    column of its array. *)
Definition first_column (b : Plots.bundle) (key : string)
  : list PrimFloat.float :=
  match Py.get b key with
  | Some (Plots.Array1 n item) => map item (seq 0 n)
  | Some (Plots.Array2 n _ item) => map (fun i => item i 0%nat) (seq 0 n)
  | None => []
  end.

(** The curve of one array of the bundle against another. *)
Definition curve (b : Plots.bundle) (xkey ykey fmt label : string)
  : Plots.line :=
  {| Plots.xdata := first_column b xkey;
     Plots.ydata := first_column b ykey;
     Plots.fmt := fmt;
     Plots.label := label |}.

(** Where each example's validator bundle is expected, relative to the
    working directory. *)
Definition projectile_path : string :=
  "outputs/projectile/validators/validator.npz".
Definition spring_path : string :=
  "outputs/spring_mass_solver/validators/validator.npz".

(** Every target array has as many rows as every input array. *)
Definition aligned (s : Samples.numpy_set) : Prop :=
  forall kin a kout b,
    In (kin, a) (Samples.invar s) -> In (kout, b) (Samples.outvar s) ->
    np.rows b = np.rows a.

End Stated.

(** ** The graphs the solver scripts unroll *)

Module Scripts.

Import Sym.

(** [output_keys] of the networks: [projectile_network],
    [spring_mass_network] and, in the inverse script,
    [invert_network]. *)
Definition projectile_net_outputs : list string := ["x"; "y"].
Definition sm_net_outputs : list string := ["x1"; "x2"; "x3"].
Definition invert_net_outputs : list string := ["m1"; "k4"].

(** [detach_names] of [sm.make_nodes] in the inverse script. *)
Definition detach_names : list string :=
  ["x1"; "x1__t"; "x1__t__t";
   "x2"; "x2__t"; "x2__t__t";
   "x3"; "x3__t"; "x3__t__t"].

(** [output_names] of the two monitors of the inverse script. *)
Definition monitor_outputs : list (list string) := [["m1"]; ["k4"]].

(** The name under which the scripts refer to the derivative of order
    [n] of the quantity [f]: [f], [f__t], [f__t__t]. *)
Fixpoint derivative_name (f : string) (n : nat) : string :=
  match n with
  | O => f
  | S n' => derivative_name f n' ++ "__t"
  end.

(** A quantity with its derivatives up to the second order. *)
Definition up_to_second (f : string) : list string :=
  [derivative_name f 0; derivative_name f 1; derivative_name f 2].

(** The quantities an expression is computed from: each unknown
    function with the order of derivation it occurs at. *)
Fixpoint atoms (e : expr) : list (string * nat) :=
  match e with
  | Number _ => []
  | Func f => [(f, O)]
  | Derivative f n => [(f, n)]
  | Add a b | Sub a b | Mul a b => atoms a ++ atoms b
  end.

Definition inputs_of (eqs : Py.dict expr) : list string :=
  map (fun a => derivative_name (fst a) (snd a))
      (flat_map atoms (Py.values eqs)).

End Scripts.

(** ** Reference solutions and reading orders *)

Module Reference.

Local Open Scope R_scope.

(** A parameter that is the same number at every instant. *)
Definition steady (a : R) (n : nat) (t : R) : R :=
  match n with
  | O => a
  | S _ => 0
  end.

(** The inverse problem read with [m1] and [k4] as steady values and
    the displacements as the analytic data. *)
Definition inverse_env (a b : R) : Sym.env :=
  fun f =>
    if String.eqb f "m1" then steady a
    else if String.eqb f "k4" then steady b
    else Stated.solution f.

(** The formulas of the projectile validator, as functions of time,
    with their derivatives of every order. *)
Definition flight_x (n : nat) (t : R) : R :=
  match n with
  | O => Samples.v_o * cos Samples.theta * t
  | S O => Samples.v_o * cos Samples.theta
  | S (S _) => 0
  end.

Definition flight_y (n : nat) (t : R) : R :=
  match n with
  | O => Samples.v_o * sin Samples.theta * t - 0.5 * 9.81 * t ^ 2
  | S O => Samples.v_o * sin Samples.theta - 9.81 * t
  | S (S O) => - 9.81
  | S (S (S _)) => 0
  end.

Definition flight : Sym.env :=
  fun f =>
    if String.eqb f "x" then flight_x
    else if String.eqb f "y" then flight_y
    else fun _ _ => 0.

(** The pairs of arrays the two plotting cells plot, in order. *)
Definition projectile_plots : list (string * string) :=
  [("t", "pred_x"); ("t", "true_x"); ("t", "pred_y"); ("t", "true_y")].

Definition spring_plots : list (string * string) :=
  [("t", "true_x1"); ("t", "true_x2"); ("t", "true_x3");
   ("t", "pred_x1"); ("t", "pred_x2"); ("t", "pred_x3")].

(** Two arrays that cannot be plotted against each other. *)
Definition mismatched (x y : Plots.ndarray) : Prop :=
  Plots.shape0 x <> Plots.shape0 y \/
  (1 < Plots.ncols x /\ 1 < Plots.ncols y /\
   Plots.ncols x <> Plots.ncols y)%nat.

Definition mismatchedb (x y : Plots.ndarray) : bool :=
  negb (Nat.eqb (Plots.shape0 x) (Plots.shape0 y))
  || (Nat.ltb 1 (Plots.ncols x) && Nat.ltb 1 (Plots.ncols y)
      && negb (Nat.eqb (Plots.ncols x) (Plots.ncols y))).

(** An array that has no column [0] to slice. *)
Definition unsliceable (a : Plots.ndarray) : Prop :=
  match a with
  | Plots.Array1 _ _ => True
  | Plots.Array2 _ c _ => c = 0%nat
  end.

(** [d[key]] and [d[key][:, 0]]. *)
Definition read_whole (b : Plots.bundle) (key : string)
  : Py.result Plots.ndarray :=
  Py.subscript b key.

Definition read_column0 (b : Plots.bundle) (key : string)
  : Py.result Plots.ndarray :=
  Py.bind (Py.subscript b key) Plots.column0.

(** The first statement [plt.plot(read(x), read(y), ...)] that raises,
    with what it raises: the arguments are read from left to right and
    then plotted. *)
Fixpoint first_failure (read : string -> Py.result Plots.ndarray)
  (plots : list (string * string)) : option Py.exn :=
  match plots with
  | [] => None
  | (xkey, ykey) :: plots' =>
      match read xkey with
      | inl e => Some e
      | inr x =>
          match read ykey with
          | inl e => Some e
          | inr y =>
              if mismatchedb x y then Some Py.ValueError
              else first_failure read plots'
          end
      end
  end.

(** A cell that leaves the saved files as they are, and a cell that
    saves [name] when it returns and nothing when it raises. *)
Definition keeps_files {A} (c : Plots.cell A) : Prop :=
  forall p r p', c p = (r, p') -> Plots.saved p' = Plots.saved p.

Definition saves_on_return (name : string) (c : Plots.cell unit) : Prop :=
  forall p r p',
    c p = (r, p') ->
    Plots.saved p' = match r with
                     | inl _ => Plots.saved p
                     | inr _ => (Plots.saved p ++ [name])%list
                     end.

(** Every row holds one entry: shape [(n, 1)]. *)
Definition single_column (a : np.matrix) : Prop :=
  Forall (fun row => List.length row = 1%nat) a.

End Reference.

(** * Properties *)

(** ** Python values *)

Lemma type_eqb_spec (a b : Py.type_) : reflect (a = b) (Py.type_eqb a b).
Proof. destruct a, b; simpl; constructor; congruence. Qed.

(** A tuple that is too short makes the indexing raise. *)
Lemma getitem_short {A} (xs : list A) (i : nat) :
  (List.length xs <= i)%nat -> Py.getitem xs i = inl Py.IndexError.
Proof.
  intros H. unfold Py.getitem.
  now rewrite (proj2 (nth_error_None xs i) H).
Qed.

(** ** The spring-mass builder *)

Section BuilderFacts.

Import Sym SpringMassOde.

Variable sympify : Py.value -> option expr.

Lemma convert_named (s : string) : convert (Py.Str s) = Symbolic (Func s).
Proof. reflexivity. Qed.

Lemma convert_int (z : Z) : convert (Py.Int z) = Symbolic (Number (Integer z)).
Proof. reflexivity. Qed.

Lemma convert_float (q : Q) : convert (Py.Float q) = Symbolic (Number (Float q)).
Proof. reflexivity. Qed.

(** Outside [str], [int] and [float] no branch is taken. *)
Lemma convert_other (c : Py.value) :
  ~ Stated.named c -> ~ Stated.numeric c -> convert c = Plain c.
Proof.
  unfold Stated.named, Stated.numeric.
  destruct c; simpl; intros Hs Hn; try reflexivity.
  - now elim Hs.
  - elim Hn; now left.
  - elim Hn; now right.
Qed.

(** On the three accepted classes the conversion is the stated
    contract, and the library's coercion is never consulted. *)
Lemma operand_symbol (c : Py.value) (e : expr) :
  Stated.symbol_of c = Some e -> operand sympify (convert c) = inr e.
Proof.
  destruct c; simpl; intros H; inversion H; reflexivity.
Qed.

Lemma symbol_of_total (c : Py.value) :
  Stated.named c \/ Stated.numeric c -> exists e, Stated.symbol_of c = Some e.
Proof.
  unfold Stated.named, Stated.numeric.
  destruct c; simpl; intros [H | [H | H]]; try discriminate H; eauto.
Qed.

(** The only exception an operand can raise is the library's
    [TypeError]. *)
Lemma operand_raises (c : coef) (e : Py.exn) :
  operand sympify c = inl e -> e = Py.TypeError.
Proof.
  destruct c as [a | v]; simpl.
  - discriminate.
  - destruct (sympify v); [discriminate | intros H; inversion H; reflexivity].
Qed.

Lemma operand_cases (c : coef) :
  (exists a, operand sympify c = inr a) \/ operand sympify c = inl Py.TypeError.
Proof.
  destruct (operand sympify c) as [e | a] eqn:E.
  - right. now rewrite (operand_raises _ _ E).
  - left. now exists a.
Qed.

(** When every coefficient yields an operand, construction returns the
    three residuals over these operands. *)
Lemma SpringMass_returns k1 k2 k3 k4 m1 m2 m3 K1 K2 K3 K4 M1 M2 M3 :
  operand sympify (convert k1) = inr K1 ->
  operand sympify (convert k2) = inr K2 ->
  operand sympify (convert k3) = inr K3 ->
  operand sympify (convert k4) = inr K4 ->
  operand sympify (convert m1) = inr M1 ->
  operand sympify (convert m2) = inr M2 ->
  operand sympify (convert m3) = inr M3 ->
  SpringMass sympify [k1; k2; k3; k4] [m1; m2; m3]
  = inr (residuals K1 K2 K3 K4 M1 M2 M3).
Proof.
  intros H1 H2 H3 H4 H5 H6 H7.
  unfold SpringMass, mul. simpl Py.getitem. unfold Py.ret. simpl Py.bind.
  rewrite H1, H2, H3, H4, H5, H6, H7. reflexivity.
Qed.

(** When one coefficient has no operand, construction raises
    [TypeError]. *)
Lemma SpringMass_raises k1 k2 k3 k4 m1 m2 m3 c :
  In c [k1; k2; k3; k4; m1; m2; m3] ->
  operand sympify (convert c) = inl Py.TypeError ->
  SpringMass sympify [k1; k2; k3; k4] [m1; m2; m3] = inl Py.TypeError.
Proof.
  intros Hin Hc.
  unfold SpringMass, mul. simpl Py.getitem. unfold Py.ret. simpl Py.bind.
  destruct (operand_cases (convert k1)) as [[K1 E1] | E1];
  destruct (operand_cases (convert k2)) as [[K2 E2] | E2];
  destruct (operand_cases (convert k3)) as [[K3 E3] | E3];
  destruct (operand_cases (convert k4)) as [[K4 E4] | E4];
  destruct (operand_cases (convert m1)) as [[M1 E5] | E5];
  destruct (operand_cases (convert m2)) as [[M2 E6] | E6];
  destruct (operand_cases (convert m3)) as [[M3 E7] | E7];
  rewrite ?E1, ?E2, ?E3, ?E4, ?E5, ?E6, ?E7; simpl; try reflexivity.
  exfalso.
  simpl in Hin.
  repeat (destruct Hin as [<- | Hin]; [congruence |]).
  exact Hin.
Qed.

End BuilderFacts.

(** ** Coefficients keep their kind *)

Section CoefficientKinds.

Import Sym SpringMassOde Stated.

Lemma symbol_shows (c : Py.value) (K : expr) :
  Stated.symbol_of c = Some K -> shows_as c K.
Proof.
  intros H. split; [exact H |].
  unfold Stated.numeric, Stated.named.
  destruct c; simpl in H; inversion H; subst; simpl; split;
    try (intros [E | E]; discriminate E); try (intros E; discriminate E);
    intros _; split; reflexivity.
Qed.

(** The value of a converted name or number: the unknown function of
    that name, or the number itself whatever the environment and the
    instant. *)
Lemma symbol_value (c : Py.value) (K : expr) :
  symbol_of c = Some K ->
  (forall s, c = Py.Str s -> forall rho t, eval rho K t = rho s O t) /\
  (numeric c -> exists v, forall rho t, eval rho K t = v).
Proof.
  unfold numeric.
  destruct c; simpl; intros H; try discriminate H; inversion H; subst; split;
    try (intros s' E; discriminate E);
    try (intros [E | E]; discriminate E).
  - intros s' E. inversion E. reflexivity.
  - intros _. exists (IZR z). reflexivity.
  - intros _. exists (Q2R q). reflexivity.
Qed.

(** The values of the three residuals over given operands. *)
Lemma residuals_values K1 K2 K3 K4 M1 M2 M3 :
  exists e1 e2 e3,
    residuals K1 K2 K3 K4 M1 M2 M3
    = [("ode_x1", e1); ("ode_x2", e2); ("ode_x3", e3)] /\
    forall (rho : env) (t : R),
      (eval rho e1 t
       = eval rho M1 t * rho "x1" 2%nat t + eval rho K1 t * rho "x1" 0%nat t
         - eval rho K2 t * (rho "x2" 0%nat t - rho "x1" 0%nat t))%R /\
      (eval rho e2 t
       = eval rho M2 t * rho "x2" 2%nat t
         + eval rho K2 t * (rho "x2" 0%nat t - rho "x1" 0%nat t)
         - eval rho K3 t * (rho "x3" 0%nat t - rho "x2" 0%nat t))%R /\
      (eval rho e3 t
       = eval rho M3 t * rho "x3" 2%nat t
         + eval rho K3 t * (rho "x3" 0%nat t - rho "x2" 0%nat t)
         + eval rho K4 t * rho "x3" 0%nat t)%R.
Proof.
  do 3 eexists. split; [reflexivity |].
  intros rho t. cbn [eval]. repeat split; reflexivity.
Qed.

End CoefficientKinds.


(** ** Forward and inverse instantiations *)

Section ForwardInverse.

Import Sym SpringMassOde Stated.

(** C6.  The forward call [k=(2,1,1,2)], [m=(1,1,1)] and the inverse
    call [k=(2,1,1,"k4")], [m=("m1",1,1)] return residuals that differ
    in two places only: where the forward [ode_x1] has the constant [1]
    times [x1''] the inverse one has the unknown function [m1] times
    [x1''], and where the forward [ode_x3] has the constant [2] times
    [x3] the inverse one has the unknown function [k4] times [x3].
    The coefficients [k1=2], [k2=1], [k3=1], [m2=1], [m3=1] enter both
    with the same values, [ode_x2] has the same value in both, and
    besides the displacements the inverse residuals hold the two
    unknown functions [m1] and [k4] and no other, the forward ones
    none. *)
Theorem inverse_swaps_m1_and_k4_only (sympify : Py.value -> option expr) :
  exists f1 f2 f3 i1 i2 i3,
    SpringMass sympify k_forward m_forward
    = inr [("ode_x1", f1); ("ode_x2", f2); ("ode_x3", f3)] /\
    SpringMass sympify k_inverse m_inverse
    = inr [("ode_x1", i1); ("ode_x2", i2); ("ode_x3", i3)] /\
    (forall (rho : env) (t : R),
        let x1 := rho "x1" in
        let x2 := rho "x2" in
        let x3 := rho "x3" in
        eval rho f1 t
        = 1 * x1 2%nat t + 2 * x1 0%nat t - 1 * (x2 0%nat t - x1 0%nat t) /\
        eval rho i1 t
        = rho "m1" 0%nat t * x1 2%nat t + 2 * x1 0%nat t
          - 1 * (x2 0%nat t - x1 0%nat t) /\
        eval rho f2 t
        = 1 * x2 2%nat t + 1 * (x2 0%nat t - x1 0%nat t)
          - 1 * (x3 0%nat t - x2 0%nat t) /\
        eval rho i2 t = eval rho f2 t /\
        eval rho f3 t
        = 1 * x3 2%nat t + 1 * (x3 0%nat t - x2 0%nat t) + 2 * x3 0%nat t /\
        eval rho i3 t
        = 1 * x3 2%nat t + 1 * (x3 0%nat t - x2 0%nat t)
          + rho "k4" 0%nat t * x3 0%nat t)%R /\
    incl (all_funcs [("ode_x1", f1); ("ode_x2", f2); ("ode_x3", f3)])
         ["x1"; "x2"; "x3"] /\
    incl (all_funcs [("ode_x1", i1); ("ode_x2", i2); ("ode_x3", i3)])
         ["x1"; "x2"; "x3"; "m1"; "k4"] /\
    In "m1" (funcs i1) /\ In "k4" (funcs i3).
Proof.
  do 6 eexists.
  split; [apply SpringMass_returns; reflexivity |].
  split; [apply SpringMass_returns; reflexivity |].
  split; [| split; [| split; [| split]]].
  - intros rho t. cbn [eval number_val]. repeat split; reflexivity.
  - intros f H. vm_compute in H. vm_compute. tauto.
  - intros f H. vm_compute in H. vm_compute. tauto.
  - vm_compute. tauto.
  - vm_compute. tauto.
Qed.

End ForwardInverse.

(** ** Coefficients of another class *)

Section OtherClasses.

Import Sym SpringMassOde Stated.

Variable sympify : Py.value -> option expr.

(** A returned dictionary is the residuals over the operands of the
    seven coefficients. *)
Lemma SpringMass_inr k1 k2 k3 k4 m1 m2 m3 (eqs : Py.dict expr) :
  SpringMass sympify [k1; k2; k3; k4] [m1; m2; m3] = inr eqs ->
  exists K1 K2 K3 K4 M1 M2 M3,
    Forall2 (fun c K => operand sympify (convert c) = inr K)
            [k1; k2; k3; k4; m1; m2; m3] [K1; K2; K3; K4; M1; M2; M3] /\
    eqs = residuals K1 K2 K3 K4 M1 M2 M3.
Proof.
  intros Hr.
  assert (Hno : forall c, In c [k1; k2; k3; k4; m1; m2; m3] ->
                          exists K, operand sympify (convert c) = inr K).
  { intros c Hin.
    destruct (operand_cases sympify (convert c)) as [HK | HE]; [exact HK |].
    rewrite (SpringMass_raises sympify _ _ _ _ _ _ _ c Hin HE) in Hr.
    discriminate Hr. }
  destruct (Hno k1) as [K1 E1]; [simpl; tauto |].
  destruct (Hno k2) as [K2 E2]; [simpl; tauto |].
  destruct (Hno k3) as [K3 E3]; [simpl; tauto |].
  destruct (Hno k4) as [K4 E4]; [simpl; tauto |].
  destruct (Hno m1) as [M1 E5]; [simpl; tauto |].
  destruct (Hno m2) as [M2 E6]; [simpl; tauto |].
  destruct (Hno m3) as [M3 E7]; [simpl; tauto |].
  exists K1, K2, K3, K4, M1, M2, M3. split.
  - repeat (apply Forall2_cons; [assumption |]). apply Forall2_nil.
  - rewrite (SpringMass_returns sympify _ _ _ _ _ _ _ _ _ _ _ _ _ _
               E1 E2 E3 E4 E5 E6 E7) in Hr.
    now inversion Hr.
Qed.

Lemma Forall2_In_l {A B} (R : A -> B -> Prop) (l : list A) (l' : list B) (a : A) :
  Forall2 R l l' -> In a l -> exists b, In b l' /\ R a b.
Proof.
  induction 1 as [| x y l l' Hxy _ IH]; simpl.
  - contradiction.
  - intros [<- | Hin].
    + exists y. auto.
    + destruct (IH Hin) as (b & Hb & Hab). exists b. auto.
Qed.

(** C3, as the code has it.  A coefficient that is neither a [str] nor
    an [int] or [float] takes no branch of the builder: it stays the
    caller's value and meets the library's multiplication as it is.
    Construction then raises [TypeError] when the library rejects that
    operand, and returns, with the library's reading of the value as
    one of the seven operands of the residuals, when the library
    accepts every unconverted coefficient. *)
Theorem other_class_is_left_to_the_library
  (k1 k2 k3 k4 m1 m2 m3 c : Py.value) :
  In c [k1; k2; k3; k4; m1; m2; m3] ->
  ~ named c -> ~ numeric c ->
  convert c = Plain c /\
  (sympify c = None ->
   SpringMass sympify [k1; k2; k3; k4] [m1; m2; m3] = inl Py.TypeError) /\
  (forall eqs,
     SpringMass sympify [k1; k2; k3; k4] [m1; m2; m3] = inr eqs ->
     exists e K1 K2 K3 K4 M1 M2 M3,
       sympify c = Some e /\ In e [K1; K2; K3; K4; M1; M2; M3] /\
       eqs = residuals K1 K2 K3 K4 M1 M2 M3) /\
  ((forall c', In c' [k1; k2; k3; k4; m1; m2; m3] ->
               operand sympify (convert c') <> inl Py.TypeError) ->
   exists eqs, SpringMass sympify [k1; k2; k3; k4] [m1; m2; m3] = inr eqs).
Proof.
  intros Hin Hs Hn.
  pose proof (convert_other c Hs Hn) as Hc.
  split; [exact Hc | split; [| split]].
  - intros Hnone. apply (SpringMass_raises sympify _ _ _ _ _ _ _ c Hin).
    rewrite Hc. simpl. now rewrite Hnone.
  - intros eqs Hr.
    destruct (SpringMass_inr _ _ _ _ _ _ _ _ Hr)
      as (K1 & K2 & K3 & K4 & M1 & M2 & M3 & Hops & ->).
    destruct (Forall2_In_l _ _ _ c Hops Hin) as (K & HK & Hop).
    rewrite Hc in Hop. simpl in Hop.
    destruct (sympify c) as [e |] eqn:E; [| discriminate Hop].
    exists e, K1, K2, K3, K4, M1, M2, M3.
    inversion Hop; subst. auto.
  - intros Hok.
    assert (Hex : forall c', In c' [k1; k2; k3; k4; m1; m2; m3] ->
                             exists K, operand sympify (convert c') = inr K).
    { intros c' Hc'. destruct (operand_cases sympify (convert c')) as [HK | HE].
      - exact HK.
      - elim (Hok c' Hc' HE). }
    destruct (Hex k1) as [K1 E1]; [simpl; tauto |].
    destruct (Hex k2) as [K2 E2]; [simpl; tauto |].
    destruct (Hex k3) as [K3 E3]; [simpl; tauto |].
    destruct (Hex k4) as [K4 E4]; [simpl; tauto |].
    destruct (Hex m1) as [M1 E5]; [simpl; tauto |].
    destruct (Hex m2) as [M2 E6]; [simpl; tauto |].
    destruct (Hex m3) as [M3 E7]; [simpl; tauto |].
    eexists. apply SpringMass_returns; eassumption.
Qed.

End OtherClasses.

Section KindsOfAllCoefficients.

Import Sym SpringMassOde Stated.

(** C1.  For [k] of four entries and [m] of three, whatever the
    coercion of the library: when every coefficient is a [str], an
    [int] or a [float], construction returns.  In whatever it returns,
    each numeric coefficient has been turned into a number and each
    string coefficient into the unknown function of [t] of that name,
    never the other way round, and the three residuals have the values
    of the three equations over these operands.  So a numeric
    coefficient enters the residuals with its own value, the same in
    every environment and at every instant, and a string coefficient
    enters them as the unknown function it names. *)
Theorem numbers_are_constants_names_are_functions
  (sympify : Py.value -> option expr) (k1 k2 k3 k4 m1 m2 m3 : Py.value) :
  let coefs := [k1; k2; k3; k4; m1; m2; m3] in
  (Forall (fun c => named c \/ numeric c) coefs ->
   exists eqs, SpringMass sympify [k1; k2; k3; k4] [m1; m2; m3] = inr eqs) /\
  (forall eqs,
      SpringMass sympify [k1; k2; k3; k4] [m1; m2; m3] = inr eqs ->
      exists K1 K2 K3 K4 M1 M2 M3 e1 e2 e3,
        Forall2
          (fun c K =>
             operand sympify (convert c) = inr K /\
             (named c \/ numeric c ->
              shows_as c K /\
              (forall s, c = Py.Str s ->
                         forall rho t, eval rho K t = rho s O t) /\
              (numeric c -> exists v, forall rho t, eval rho K t = v)))
          coefs [K1; K2; K3; K4; M1; M2; M3] /\
        eqs = [("ode_x1", e1); ("ode_x2", e2); ("ode_x3", e3)] /\
        forall (rho : env) (t : R),
          (eval rho e1 t
           = eval rho M1 t * rho "x1" 2%nat t
             + eval rho K1 t * rho "x1" 0%nat t
             - eval rho K2 t * (rho "x2" 0%nat t - rho "x1" 0%nat t))%R /\
          (eval rho e2 t
           = eval rho M2 t * rho "x2" 2%nat t
             + eval rho K2 t * (rho "x2" 0%nat t - rho "x1" 0%nat t)
             - eval rho K3 t * (rho "x3" 0%nat t - rho "x2" 0%nat t))%R /\
          (eval rho e3 t
           = eval rho M3 t * rho "x3" 2%nat t
             + eval rho K3 t * (rho "x3" 0%nat t - rho "x2" 0%nat t)
             + eval rho K4 t * rho "x3" 0%nat t)%R).
Proof.
  intros coefs. subst coefs. split.
  - intros Hall.
    repeat match goal with
           | H : Forall _ (_ :: _) |- _ => inversion_clear H
           end.
    repeat match goal with
           | H : named ?c \/ numeric ?c |- _ =>
               destruct (symbol_of_total c H) as [? ?]; clear H
           end.
    eexists. apply SpringMass_returns; apply operand_symbol; eassumption.
  - intros eqs Hr.
    destruct (SpringMass_inr sympify _ _ _ _ _ _ _ _ Hr)
      as (K1 & K2 & K3 & K4 & M1 & M2 & M3 & Hops & ->).
    destruct (residuals_values K1 K2 K3 K4 M1 M2 M3)
      as (e1 & e2 & e3 & He & Hv).
    exists K1, K2, K3, K4, M1, M2, M3, e1, e2, e3.
    split; [| split; [exact He | exact Hv]].
    revert Hops. apply Forall2_impl.
    intros c K Hop. split; [exact Hop |].
    intros Hc.
    destruct (symbol_of_total c Hc) as [e Hsym].
    rewrite (operand_symbol sympify c e Hsym) in Hop.
    inversion Hop; subst.
    split; [now apply symbol_shows | now apply symbol_value].
Qed.

(** The inverse problem's call as an instance of C1. *)
Lemma numbers_are_constants_names_are_functions_witness :
  Forall (fun c => named c \/ numeric c) (k_inverse ++ m_inverse) /\
  exists eqs, SpringMass (fun _ => None) k_inverse m_inverse = inr eqs.
Proof.
  assert (H : Forall (fun c => named c \/ numeric c) (k_inverse ++ m_inverse)).
  { unfold named, numeric, k_inverse, m_inverse. simpl.
    repeat (apply Forall_cons; [simpl; auto |]). apply Forall_nil. }
  split; [exact H |].
  exact (proj1 (numbers_are_constants_names_are_functions
                  (fun _ => None) _ _ _ _ _ _ _) H).
Defined.

End KindsOfAllCoefficients.

Section OtherClassesExamples.

Import Sym SpringMassOde Stated.

(** Against C3 as stated: a numpy scalar as [k1] is neither a name nor
    a number for the builder, yet no exception is raised and the
    residuals hold its value as the operand of [k1]. *)
Lemma numpy_scalar_passes_unchecked :
  let c := Py.NpFloat64 2 in
  ~ named c /\ ~ numeric c /\
  SpringMass sympify_scalars [c; Py.Int 1; Py.Int 1; Py.Int 2] m_forward
  = inr (residuals (Number (Float 2)) (const 1) (const 1) (const 2)
                   (const 1) (const 1) (const 1)).
Proof.
  unfold named, numeric. simpl Py.type.
  split; [discriminate | split; [intros [H | H]; discriminate H |]].
  reflexivity.
Qed.

Lemma other_class_is_left_to_the_library_witness :
  In (Py.NpFloat64 2)
     [Py.NpFloat64 2; Py.Int 1; Py.Int 1; Py.Int 2; Py.Int 1; Py.Int 1; Py.Int 1] /\
  ~ named (Py.NpFloat64 2) /\ ~ numeric (Py.NpFloat64 2) /\
  convert (Py.NpFloat64 2) = Plain (Py.NpFloat64 2).
Proof.
  assert (Hin : In (Py.NpFloat64 2)
                   [Py.NpFloat64 2; Py.Int 1; Py.Int 1; Py.Int 2;
                    Py.Int 1; Py.Int 1; Py.Int 1]) by (simpl; tauto).
  assert (Hs : ~ named (Py.NpFloat64 2)) by (unfold named; simpl; discriminate).
  assert (Hn : ~ numeric (Py.NpFloat64 2))
    by (unfold numeric; simpl; intros [H | H]; discriminate H).
  split; [exact Hin | split; [exact Hs | split; [exact Hn |]]].
  exact (proj1 (other_class_is_left_to_the_library sympify_scalars
                  _ _ _ _ _ _ _ _ Hin Hs Hn)).
Defined.

End OtherClassesExamples.

(** ** Meaning of derivatives *)

Section Calculus.

Import Sym.
Local Open Scope R_scope.

Lemma derivable_pt_lim_eq (f g : R -> R) (x l l' : R) :
  (forall y, f y = g y) -> l = l' ->
  derivable_pt_lim f x l -> derivable_pt_lim g x l'.
Proof.
  intros Hfg <- Hf eps Heps.
  destruct (Hf eps Heps) as [delta Hd].
  exists delta. intros h Hh Hlt.
  rewrite <- !Hfg. now apply Hd.
Qed.

(** Symbolic differentiation agrees with the derivative of the
    meaning, in every consistent environment. *)
Lemma diff_sound (rho : env) (Hrho : consistent rho) (e : expr) (t : R) :
  derivable_pt_lim (eval rho e) t (eval rho (diff e) t).
Proof.
  induction e as [n | f | f n | a IHa b IHb | a IHa b IHb | a IHa b IHb].
  - apply (derivable_pt_lim_eq (fct_cte (number_val n)) _ t 0).
    + reflexivity.
    + reflexivity.
    + apply derivable_pt_lim_const.
  - exact (Hrho f O t).
  - exact (Hrho f n t).
  - exact (derivable_pt_lim_plus _ _ _ _ _ IHa IHb).
  - exact (derivable_pt_lim_minus _ _ _ _ _ IHa IHb).
  - exact (derivable_pt_lim_mult _ _ _ _ _ IHa IHb).
Qed.

Lemma cos_quarter_turn (x : R) : cos (x + PI / 2) = - sin x.
Proof. rewrite cos_plus, cos_PI2, sin_PI2. ring. Qed.

Lemma harmonic_0 (w t : R) : Stated.harmonic w 0 t = cos (w * t).
Proof.
  unfold Stated.harmonic. simpl.
  replace (w * t + 0 * (PI / 2)) with (w * t) by ring. ring.
Qed.

Lemma harmonic_1 (w t : R) : Stated.harmonic w 1 t = - w * sin (w * t).
Proof.
  unfold Stated.harmonic. simpl.
  replace (w * t + 1 * (PI / 2)) with (w * t + PI / 2) by ring.
  rewrite cos_quarter_turn. ring.
Qed.

Lemma harmonic_2 (w t : R) : Stated.harmonic w 2 t = - (w * w) * cos (w * t).
Proof.
  unfold Stated.harmonic. simpl.
  replace (w * t + (1 + 1) * (PI / 2)) with (w * t + PI) by field.
  rewrite neg_cos. ring.
Qed.

Lemma harmonic_derivative (w : R) (n : nat) (t : R) :
  derivable_pt_lim (Stated.harmonic w n) t (Stated.harmonic w (S n) t).
Proof.
  set (c := INR n * (PI / 2)).
  apply (derivable_pt_lim_eq
           (mult_real_fct (w ^ n)
              (comp cos (mult_real_fct w id + fct_cte c)%F))
           _ t (w ^ n * (- sin (w * t + c) * (w * 1 + 0)))).
  - intros y. reflexivity.
  - unfold Stated.harmonic. rewrite S_INR.
    replace (w * t + (INR n + 1) * (PI / 2)) with (w * t + c + PI / 2)
      by (unfold c; ring).
    rewrite cos_quarter_turn. simpl. ring.
  - apply derivable_pt_lim_scal.
    apply (derivable_pt_lim_comp (mult_real_fct w id + fct_cte c)%F cos).
    + apply derivable_pt_lim_plus.
      * apply derivable_pt_lim_scal, derivable_pt_lim_id.
      * apply derivable_pt_lim_const.
    + apply derivable_pt_lim_cos.
Qed.

(** A combination of three harmonics is differentiated term by
    term. *)
Lemma three_harmonics_derivative (a b c u v w : R) (n : nat) (t : R) :
  derivable_pt_lim
    (fun t => a * Stated.harmonic u n t + b * Stated.harmonic v n t
              + c * Stated.harmonic w n t) t
    (a * Stated.harmonic u (S n) t + b * Stated.harmonic v (S n) t
     + c * Stated.harmonic w (S n) t).
Proof.
  apply (derivable_pt_lim_plus
           (fun t => a * Stated.harmonic u n t + b * Stated.harmonic v n t)
           (fun t => c * Stated.harmonic w n t)).
  - apply (derivable_pt_lim_plus
             (fun t => a * Stated.harmonic u n t)
             (fun t => b * Stated.harmonic v n t)).
    + apply (derivable_pt_lim_scal (Stated.harmonic u n)), harmonic_derivative.
    + apply (derivable_pt_lim_scal (Stated.harmonic v n)), harmonic_derivative.
  - apply (derivable_pt_lim_scal (Stated.harmonic w n)), harmonic_derivative.
Qed.

Lemma solution_consistent : consistent Stated.solution.
Proof.
  intros f n t. unfold Stated.solution.
  destruct (String.eqb f "x1"); [| destruct (String.eqb f "x2");
                                   [| destruct (String.eqb f "x3")]].
  - apply three_harmonics_derivative.
  - apply (derivable_pt_lim_eq
             (fun t => 2 / 6 * Stated.harmonic 1 n t
                       + 0 * Stated.harmonic 1 n t
                       + - (1 / 3) * Stated.harmonic 2 n t)
             _ t
             (2 / 6 * Stated.harmonic 1 (S n) t
              + 0 * Stated.harmonic 1 (S n) t
              + - (1 / 3) * Stated.harmonic 2 (S n) t)).
    + intros y. unfold Stated.x2. ring.
    + unfold Stated.x2. ring.
    + apply three_harmonics_derivative.
  - apply (derivable_pt_lim_eq
             (fun t => 1 / 6 * Stated.harmonic 1 n t
                       + - (1 / 2) * Stated.harmonic (sqrt 3) n t
                       + 1 / 3 * Stated.harmonic 2 n t)
             _ t
             (1 / 6 * Stated.harmonic 1 (S n) t
              + - (1 / 2) * Stated.harmonic (sqrt 3) (S n) t
              + 1 / 3 * Stated.harmonic 2 (S n) t)).
    + intros y. unfold Stated.x3. ring.
    + unfold Stated.x3. ring.
    + apply three_harmonics_derivative.
  - apply (derivable_pt_lim_eq (fct_cte 0) _ t 0); try reflexivity.
    apply derivable_pt_lim_const.
Qed.

End Calculus.

(** ** The closed-form solution in the forward residuals *)

Section ForwardSolution.

Import Sym SpringMassOde.
Local Open Scope R_scope.

Lemma solution_x1 : Stated.solution "x1" = Stated.x1.
Proof. reflexivity. Qed.

Lemma solution_x2 : Stated.solution "x2" = Stated.x2.
Proof. reflexivity. Qed.

Lemma solution_x3 : Stated.solution "x3" = Stated.x3.
Proof. reflexivity. Qed.

Lemma sqrt3_sqr : sqrt 3 * sqrt 3 = 3.
Proof. apply sqrt_sqrt. lra. Qed.

(** Orders 0 and 2 of the three displacements, in the three cosines. *)
Lemma x1_orders (t : R) :
  Stated.x1 0 t
  = 1 / 6 * cos t + 1 / 2 * cos (sqrt 3 * t) + 1 / 3 * cos (2 * t) /\
  Stated.x1 2 t
  = - (1 / 6) * cos t - 3 / 2 * cos (sqrt 3 * t) - 4 / 3 * cos (2 * t).
Proof.
  unfold Stated.x1. rewrite !harmonic_0, !harmonic_2, sqrt3_sqr.
  replace (1 * t) with t by ring. split; lra.
Qed.

Lemma x2_orders (t : R) :
  Stated.x2 0 t = 2 / 6 * cos t - 1 / 3 * cos (2 * t) /\
  Stated.x2 2 t = - (2 / 6) * cos t + 4 / 3 * cos (2 * t).
Proof.
  unfold Stated.x2. rewrite !harmonic_0, !harmonic_2.
  replace (1 * t) with t by ring. split; lra.
Qed.

Lemma x3_orders (t : R) :
  Stated.x3 0 t
  = 1 / 6 * cos t - 1 / 2 * cos (sqrt 3 * t) + 1 / 3 * cos (2 * t) /\
  Stated.x3 2 t
  = - (1 / 6) * cos t + 3 / 2 * cos (sqrt 3 * t) - 4 / 3 * cos (2 * t).
Proof.
  unfold Stated.x3. rewrite !harmonic_0, !harmonic_2, sqrt3_sqr.
  replace (1 * t) with t by ring. split; lra.
Qed.

(** C2.  The forward call [k=(2,1,1,2)], [m=(1,1,1)] returns three
    residuals [ode_x1], [ode_x2], [ode_x3].  Read in the environment
    that gives [x1], [x2], [x3] the stated sums of cosines (order 0)
    and their true derivatives (every higher order), each residual is
    zero at every [t]. *)
Theorem closed_form_zeroes_forward_residuals
  (sympify : Py.value -> option expr) :
  exists e1 e2 e3,
    SpringMass sympify k_forward m_forward
    = inr [("ode_x1", e1); ("ode_x2", e2); ("ode_x3", e3)] /\
    consistent Stated.solution /\
    (forall t,
        Stated.solution "x1" 0%nat t
        = 1 / 6 * cos t + 1 / 2 * cos (sqrt 3 * t) + 1 / 3 * cos (2 * t) /\
        Stated.solution "x2" 0%nat t
        = 2 / 6 * cos t - 1 / 3 * cos (2 * t) /\
        Stated.solution "x3" 0%nat t
        = 1 / 6 * cos t - 1 / 2 * cos (sqrt 3 * t) + 1 / 3 * cos (2 * t)) /\
    (forall t,
        eval Stated.solution e1 t = 0 /\
        eval Stated.solution e2 t = 0 /\
        eval Stated.solution e3 t = 0).
Proof.
  do 3 eexists. split; [| split; [| split]].
  - apply SpringMass_returns; reflexivity.
  - exact solution_consistent.
  - intros t. rewrite solution_x1, solution_x2, solution_x3.
    split; [apply x1_orders | split; [apply x2_orders | apply x3_orders]].
  - intros t. cbn [eval number_val].
    rewrite solution_x1, solution_x2, solution_x3.
    destruct (x1_orders t) as [-> ->].
    destruct (x2_orders t) as [-> ->].
    destruct (x3_orders t) as [-> ->].
    repeat split; lra.
Qed.

End ForwardSolution.

(** ** Residuals read as equations *)

Section OneSided.

Import Sym SpringMassOde ProjectileEqn Samples.
Local Open Scope R_scope.

Lemma residual_1 (rho : env) (K1 K2 M1 : expr) (t : R) :
  eval rho (Sub (Add (Mul M1 (Derivative "x1" 2)) (Mul K1 (Func "x1")))
                (Mul K2 (Sub (Func "x2") (Func "x1")))) t = 0 <->
  Stated.governing_1 (eval rho M1 t) (eval rho K1 t) (eval rho K2 t)
    (rho "x1" 0%nat t) (rho "x2" 0%nat t) (rho "x1" 2%nat t).
Proof. unfold Stated.governing_1. cbn [eval]. split; intros H; lra. Qed.

Lemma residual_2 (rho : env) (K2 K3 M2 : expr) (t : R) :
  eval rho (Sub (Add (Mul M2 (Derivative "x2" 2))
                     (Mul K2 (Sub (Func "x2") (Func "x1"))))
                (Mul K3 (Sub (Func "x3") (Func "x2")))) t = 0 <->
  Stated.governing_2 (eval rho M2 t) (eval rho K2 t) (eval rho K3 t)
    (rho "x1" 0%nat t) (rho "x2" 0%nat t) (rho "x3" 0%nat t)
    (rho "x2" 2%nat t).
Proof. unfold Stated.governing_2. cbn [eval]. split; intros H; lra. Qed.

Lemma residual_3 (rho : env) (K3 K4 M3 : expr) (t : R) :
  eval rho (Add (Add (Mul M3 (Derivative "x3" 2))
                     (Mul K3 (Sub (Func "x3") (Func "x2"))))
                (Mul K4 (Func "x3"))) t = 0 <->
  Stated.governing_3 (eval rho M3 t) (eval rho K3 t) (eval rho K4 t)
    (rho "x2" 0%nat t) (rho "x3" 0%nat t) (rho "x3" 2%nat t).
Proof. unfold Stated.governing_3. cbn [eval]. split; intros H; lra. Qed.

(** C5.  Whenever the spring-mass builder returns, its three residuals
    are the two sides of the three governing equations brought to one
    side: each residual is zero exactly when its equation holds, for
    the operands of the coefficients, and the interior constraint asks
    for zero.  The two projectile residuals are the bare second
    derivatives and hold no constant; gravity enters as the target
    [-9.81] of [ode_y] in the interior constraint, so that meeting the
    targets is [x'' = 0] and [y'' = -9.81]. *)
Theorem residuals_are_one_sided
  (sympify : Py.value -> option expr)
  (k1 k2 k3 k4 m1 m2 m3 : Py.value) (eqs : Py.dict expr) :
  SpringMass sympify [k1; k2; k3; k4] [m1; m2; m3] = inr eqs ->
  (exists K1 K2 K3 K4 M1 M2 M3 e1 e2 e3,
      Forall2 (fun c K => operand sympify (convert c) = inr K)
              [k1; k2; k3; k4; m1; m2; m3] [K1; K2; K3; K4; M1; M2; M3] /\
      eqs = [("ode_x1", e1); ("ode_x2", e2); ("ode_x3", e3)] /\
      forall (rho : env) (t : R),
        (eval rho e1 t = 0 <->
         Stated.governing_1 (eval rho M1 t) (eval rho K1 t) (eval rho K2 t)
           (rho "x1" 0%nat t) (rho "x2" 0%nat t) (rho "x1" 2%nat t)) /\
        (eval rho e2 t = 0 <->
         Stated.governing_2 (eval rho M2 t) (eval rho K2 t) (eval rho K3 t)
           (rho "x1" 0%nat t) (rho "x2" 0%nat t) (rho "x3" 0%nat t)
           (rho "x2" 2%nat t)) /\
        (eval rho e3 t = 0 <->
         Stated.governing_3 (eval rho M3 t) (eval rho K3 t) (eval rho K4 t)
           (rho "x2" 0%nat t) (rho "x3" 0%nat t) (rho "x3" 2%nat t))) /\
  (forall n, Forall (fun target => target = 0)
                    (Py.values (targets (spring_interior n)))) /\
  (exists ex ey,
      ProjectileEquation = [("ode_x", ex); ("ode_y", ey)] /\
      numbers ex = [] /\ numbers ey = [] /\
      forall n, exists tx ty,
        targets (projectile_interior n) = [("ode_x", tx); ("ode_y", ty)] /\
        tx = 0 /\ ty = - 9.81 /\
        forall (rho : env) (t : R),
          (eval rho ex t = tx <-> Stated.projectile_x (rho "x" 2%nat t)) /\
          (eval rho ey t = ty <->
           Stated.projectile_y (- 9.81) (rho "y" 2%nat t))).
Proof.
  intros Hr.
  destruct (SpringMass_inr sympify _ _ _ _ _ _ _ _ Hr)
    as (K1 & K2 & K3 & K4 & M1 & M2 & M3 & Hops & ->).
  split; [| split].
  - exists K1, K2, K3, K4, M1, M2, M3. do 3 eexists.
    split; [exact Hops | split; [reflexivity |]].
    intros rho t.
    split; [apply residual_1 | split; [apply residual_2 | apply residual_3]].
  - intros n. unfold spring_interior, Py.values. cbn [targets map snd].
    repeat (apply Forall_cons; [lra |]). apply Forall_nil.
  - do 2 eexists. split; [reflexivity |].
    split; [reflexivity | split; [reflexivity |]].
    intros n. do 2 eexists. split; [reflexivity |].
    split; [lra | split; [reflexivity |]].
    intros rho t. unfold Stated.projectile_x, Stated.projectile_y.
    cbn [eval diff_n diff]. split; split; intros H; lra.
Qed.

Lemma residuals_are_one_sided_witness :
  exists eqs,
    SpringMass sympify_scalars k_forward m_forward = inr eqs /\
    forall n, Forall (fun target => target = 0)
                     (Py.values (targets (spring_interior n))).
Proof.
  eexists. split.
  - reflexivity.
  - exact (proj1 (proj2 (residuals_are_one_sided sympify_scalars
                           (Py.Int 2) (Py.Int 1) (Py.Int 1) (Py.Int 2)
                           (Py.Int 1) (Py.Int 1) (Py.Int 1) _ eq_refl))).
Defined.

End OneSided.

(** ** Arrays *)

Section ArrayFacts.

Local Open Scope R_scope.

Lemma zip_with_map {A B C D} (f : B -> C -> D) (g : A -> B) (h : A -> C)
  (l : list A) :
  np.zip_with f (map g l) (map h l) = map (fun x => f (g x) (h x)) l.
Proof.
  induction l as [| x l IH]; simpl.
  - reflexivity.
  - now rewrite IH.
Qed.

Lemma ufunc_ufunc (f g : R -> R) (a : np.matrix) :
  np.ufunc f (np.ufunc g a) = np.ufunc (fun v => f (g v)) a.
Proof.
  unfold np.ufunc. rewrite map_map. apply map_ext.
  intros row. apply map_map.
Qed.

Lemma binop_ufunc (f : R -> R -> R) (g h : R -> R) (a : np.matrix) :
  np.binop f (np.ufunc g a) (np.ufunc h a)
  = np.ufunc (fun v => f (g v) (h v)) a.
Proof.
  unfold np.binop, np.ufunc. rewrite zip_with_map. apply map_ext.
  intros row. apply zip_with_map.
Qed.

Lemma ufunc_expand_dims (f : R -> R) (v : np.vector) :
  np.ufunc f (np.expand_dims v) = map (fun x => [f x]) v.
Proof.
  unfold np.ufunc, np.expand_dims. rewrite map_map. reflexivity.
Qed.

Lemma ufunc_ext (f g : R -> R) (a : np.matrix) :
  (forall v, f v = g v) -> np.ufunc f a = np.ufunc g a.
Proof.
  intros H. unfold np.ufunc. apply map_ext. intros row. now apply map_ext.
Qed.

Lemma rows_ufunc (f : R -> R) (a : np.matrix) :
  np.rows (np.ufunc f a) = np.rows a.
Proof. unfold np.rows, np.ufunc. apply length_map. Qed.

Lemma rows_expand_dims (v : np.vector) :
  np.rows (np.expand_dims v) = List.length v.
Proof. unfold np.rows, np.expand_dims. apply length_map. Qed.

Lemma length_arange (start stop step : Q) :
  List.length (np.arange start stop step) = np.arange_len start stop step.
Proof.
  unfold np.arange, np.arange_pts. now rewrite !length_map, length_seq.
Qed.

(** The analytic arrays are the closed-form displacements applied to
    every entry of [t]. *)
Lemma analytic_outvar_pointwise (t : np.matrix) :
  Samples.analytic_outvar t
  = [("x1", np.ufunc (Stated.x1 0) t);
     ("x2", np.ufunc (Stated.x2 0) t);
     ("x3", np.ufunc (Stated.x3 0) t)].
Proof.
  unfold Samples.analytic_outvar, np.add, np.sub, np.scale, np.cos.
  rewrite !ufunc_ufunc, !binop_ufunc.
  apply f_equal2; [apply f_equal, ufunc_ext; intros v |].
  2: apply f_equal2; [apply f_equal, ufunc_ext; intros v |].
  3: apply f_equal2; [apply f_equal, ufunc_ext; intros v | reflexivity].
  - rewrite (proj1 (x1_orders v)). reflexivity.
  - rewrite (proj1 (x2_orders v)). lra.
  - rewrite (proj1 (x3_orders v)). reflexivity.
Qed.

End ArrayFacts.

(** ** The arrays in binary64 *)

Section Binary64Arrays.

Import PrimFloat.
Local Open Scope float_scope.
#[local] Set Warnings "-inexact-float".

Lemma f64_ufunc_ufunc (f g : float -> float) (a : F64.matrix) :
  F64.ufunc f (F64.ufunc g a) = F64.ufunc (fun v => f (g v)) a.
Proof.
  unfold F64.ufunc. rewrite map_map. apply map_ext.
  intros row. apply map_map.
Qed.

Lemma f64_binop_ufunc (f : float -> float -> float) (g h : float -> float)
  (a : F64.matrix) :
  F64.binop f (F64.ufunc g a) (F64.ufunc h a)
  = F64.ufunc (fun v => f (g v) (h v)) a.
Proof.
  unfold F64.binop, F64.ufunc. rewrite zip_with_map. apply map_ext.
  intros row. apply zip_with_map.
Qed.

Lemma f64_ufunc_expand_dims (f : float -> float) (v : F64.vector) :
  F64.ufunc f (F64.expand_dims v) = map (fun x => [f x]) v.
Proof.
  unfold F64.ufunc, F64.expand_dims. rewrite map_map. reflexivity.
Qed.

(** The grid of the projectile validator, point by point. *)
Lemma f64_t_val :
  F64.t_val = map (fun i => F64.of_nat i * 0.01) (seq 0 500).
Proof. vm_compute. reflexivity. Qed.

(** C4.  In binary64, as the script computes: the input of the
    projectile validator is the grid of the 500 points [i * 0.01]
    (rounded), [i = 0 .. 499], all in [[0, 5)], one per row; the
    targets are, row by row, [40 * cos(pi/3) * t] and
    [40 * sin(pi/3) * t - 4.905 * t * t] evaluated at the point [t] of
    that row with the operations of the script, for the cosine and the
    sine of the library, whatever they round to. *)
Theorem projectile_targets_are_closed_form_on_grid
  (np_cos np_sin : float -> float) :
  let grid := map (fun i => F64.of_nat i * 0.01) (seq 0 500) in
  F64.v_o = 40 /\ F64.theta = F64.pi / 3 /\
  List.length grid = 500%nat /\
  forallb (fun t => (0 <=? t) && (t <? 5)) grid = true /\
  F64.projectile_validator np_cos np_sin
  = {| F64.invar := [("t", map (fun t => [t]) grid)];
       F64.outvar :=
         [("x", map (fun t => [40 * np_cos (F64.pi / 3) * t]) grid);
          ("y", map (fun t => [40 * np_sin (F64.pi / 3) * t
                               - 4.905 * (t * t)]) grid)] |}.
Proof.
  intros grid.
  split; [reflexivity | split; [reflexivity | split; [| split]]].
  - unfold grid. now rewrite length_map, length_seq.
  - vm_compute. reflexivity.
  - unfold F64.projectile_validator, F64.X_val, F64.Y_val, F64.sub,
      F64.scale, F64.square, F64.T_val, F64.flatten.
    rewrite f64_ufunc_ufunc, f64_binop_ufunc, f64_t_val.
    fold grid. rewrite !f64_ufunc_expand_dims.
    reflexivity.
Qed.

End Binary64Arrays.

(** ** Row counts *)

Section RowCounts.

Import Samples.
Local Open Scope R_scope.

Lemma spring_data_outvar :
  outvar spring_data
  = [("x1", np.ufunc (Stated.x1 0) inverse_t);
     ("x2", np.ufunc (Stated.x2 0) inverse_t);
     ("x3", np.ufunc (Stated.x3 0) inverse_t);
     ("ode_x1", np.full_like inverse_t 0);
     ("ode_x2", np.full_like inverse_t 0);
     ("ode_x3", np.full_like inverse_t 0)].
Proof.
  unfold spring_data. cbn [outvar].
  rewrite analytic_outvar_pointwise.
  generalize (np.ufunc (Stated.x1 0) inverse_t)
             (np.ufunc (Stated.x2 0) inverse_t)
             (np.ufunc (Stated.x3 0) inverse_t)
             (np.full_like inverse_t 0).
  reflexivity.
Qed.

Lemma rows_T_val : np.rows T_val = 500%nat.
Proof.
  unfold T_val, np.flatten, t_val.
  rewrite rows_expand_dims, length_arange. vm_compute. reflexivity.
Qed.

Lemma rows_forward_t : np.rows forward_t = 10000%nat.
Proof.
  unfold forward_t. rewrite rows_expand_dims, length_arange.
  vm_compute. reflexivity.
Qed.

Lemma rows_inverse_t : np.rows inverse_t = 1000%nat.
Proof.
  unfold inverse_t. rewrite rows_expand_dims, length_arange.
  vm_compute. reflexivity.
Qed.

Ltac each_entry H :=
  cbn [In] in H;
  repeat (destruct H as [H | H];
          [apply pair_equal_spec in H; destruct H as [<- <-] |]);
  try (exfalso; exact H).

(** C8.  In the projectile validator, the spring-mass validator and the
    data constraint of the inverse problem, every target array has the
    row count of every input array: 500, 10000 and 1000 rows. *)
Theorem targets_have_the_rows_of_inputs :
  Stated.aligned projectile_validator /\
  Stated.aligned spring_validator /\
  Stated.aligned spring_data /\
  Forall (fun a => np.rows a = 500%nat)
         (Py.values (invar projectile_validator)
          ++ Py.values (outvar projectile_validator)) /\
  Forall (fun a => np.rows a = 10000%nat)
         (Py.values (invar spring_validator)
          ++ Py.values (outvar spring_validator)) /\
  Forall (fun a => np.rows a = 1000%nat)
         (Py.values (invar spring_data) ++ Py.values (outvar spring_data)).
Proof.
  assert (HX : np.rows X_val = np.rows T_val).
  { unfold X_val, np.scale. apply rows_ufunc. }
  assert (HY : np.rows Y_val = np.rows T_val).
  { unfold Y_val, np.sub, np.scale, np.square.
    rewrite ufunc_ufunc, binop_ufunc. apply rows_ufunc. }
  assert (Hf : outvar spring_validator
               = [("x1", np.ufunc (Stated.x1 0) forward_t);
                  ("x2", np.ufunc (Stated.x2 0) forward_t);
                  ("x3", np.ufunc (Stated.x3 0) forward_t)]).
  { unfold spring_validator. cbn [outvar]. apply analytic_outvar_pointwise. }
  split; [| split; [| split; [| split; [| split]]]].
  - intros kin a kout b Ha Hb.
    unfold projectile_validator in Ha, Hb.
    each_entry Ha; each_entry Hb; assumption.
  - intros kin a kout b Ha Hb. rewrite Hf in Hb.
    unfold spring_validator in Ha. cbn [invar] in Ha.
    each_entry Ha; each_entry Hb; apply rows_ufunc.
  - intros kin a kout b Ha Hb. rewrite spring_data_outvar in Hb.
    unfold spring_data in Ha. cbn [invar] in Ha.
    each_entry Ha; each_entry Hb; apply rows_ufunc.
  - unfold projectile_validator, Py.values. cbn [invar outvar map snd app].
    rewrite <- rows_T_val.
    repeat (apply Forall_cons; [auto |]). apply Forall_nil.
  - rewrite Hf. unfold spring_validator, Py.values. cbn [invar map snd app].
    rewrite <- rows_forward_t.
    repeat (apply Forall_cons; [reflexivity || apply rows_ufunc |]).
    apply Forall_nil.
  - rewrite spring_data_outvar.
    unfold spring_data, Py.values. cbn [invar map snd app].
    rewrite <- rows_inverse_t.
    repeat (apply Forall_cons; [reflexivity || apply rows_ufunc |]).
    apply Forall_nil.
Qed.

End RowCounts.

(** ** Initial conditions *)

Section InitialConditions.

Import Samples.
Local Open Scope R_scope.

Lemma displacements_at_0 :
  Stated.x1 0 0 = 1 /\ Stated.x2 0 0 = 0 /\ Stated.x3 0 0 = 0.
Proof.
  rewrite (proj1 (x1_orders 0)), (proj1 (x2_orders 0)), (proj1 (x3_orders 0)).
  rewrite !Rmult_0_r, cos_0. repeat split; lra.
Qed.

Lemma velocities_at_0 :
  Stated.x1 1 0 = 0 /\ Stated.x2 1 0 = 0 /\ Stated.x3 1 0 = 0.
Proof.
  unfold Stated.x1, Stated.x2, Stated.x3.
  rewrite !harmonic_1, !Rmult_0_r, sin_0. repeat split; ring.
Qed.

(** The closed forms, as functions of time, start at the initial
    conditions, and these are the six targets of the constraint. *)
Lemma closed_forms_start_at_targets (n : nat) :
  let ic := targets (spring_IC n) in
  (Stated.x1 0 0 = 1 /\ Stated.x2 0 0 = 0 /\ Stated.x3 0 0 = 0) /\
  derivable_pt_lim (Stated.x1 0) 0 0 /\
  derivable_pt_lim (Stated.x2 0) 0 0 /\
  derivable_pt_lim (Stated.x3 0) 0 0 /\
  Py.get ic "x1" = Some 1 /\ Py.get ic "x2" = Some 0 /\
  Py.get ic "x3" = Some 0 /\ Py.get ic "x1__t" = Some 0 /\
  Py.get ic "x2__t" = Some 0 /\ Py.get ic "x3__t" = Some 0.
Proof.
  intros ic.
  destruct velocities_at_0 as (V1 & V2 & V3).
  split; [exact displacements_at_0 | split; [| split; [| split]]].
  - rewrite <- V1 at 2. apply (solution_consistent "x1" 0%nat 0).
  - rewrite <- V2 at 2. apply (solution_consistent "x2" 0%nat 0).
  - rewrite <- V3 at 2. apply (solution_consistent "x3" 0%nat 0).
  - unfold ic, spring_IC. cbn [targets]. simpl Py.get.
    repeat split; f_equal; lra.
Qed.

End InitialConditions.

Section InitialRows.

Import PrimFloat.
Local Open Scope float_scope.
#[local] Set Warnings "-inexact-float".

Lemma first_row_ufunc (f : float -> float) (a : F64.matrix) :
  nth_error (F64.ufunc f a) 0 = option_map (map f) (nth_error a 0).
Proof. destruct a; reflexivity. Qed.

Lemma first_row_binop (f : float -> float -> float) (a b : F64.matrix)
  (r r' : list float) :
  nth_error a 0 = Some r -> nth_error b 0 = Some r' ->
  nth_error (F64.binop f a b) 0 = Some (np.zip_with f r r').
Proof.
  destruct a as [| x a]; [discriminate |].
  destruct b as [| y b]; [discriminate |].
  simpl. intros H H'. inversion H. inversion H'. reflexivity.
Qed.

Lemma arange_starts (start stop step : float) (n : nat) :
  F64.arange_len start stop step = S n ->
  nth_error (F64.expand_dims (F64.arange start stop step)) 0 = Some [start].
Proof. intros H. unfold F64.arange. rewrite H. reflexivity. Qed.

(** The first rows of the analytic arrays over an array of instants
    that starts at [0], for a cosine with [cos(0) = 1]. *)
Lemma analytic_first_rows (np_cos : float -> float) (t : F64.matrix) :
  np_cos 0 = 1 -> nth_error t 0 = Some [0] ->
  forall rest,
    F64.first_row (F64.analytic_outvar np_cos t ++ rest)%list "x1" = Some [1] /\
    F64.first_row (F64.analytic_outvar np_cos t ++ rest)%list "x2" = Some [0] /\
    F64.first_row (F64.analytic_outvar np_cos t ++ rest)%list "x3"
    = Some [-0x1p-54].
Proof.
  intros Hcos Ht rest.
  assert (Hc : forall c, nth_error (F64.scale c (F64.cos np_cos t)) 0
                         = Some [c * 1]).
  { intros c. unfold F64.scale, F64.cos.
    rewrite !first_row_ufunc, Ht. simpl. now rewrite Hcos. }
  assert (Hk : forall c k, k * 0 = 0 ->
                 nth_error (F64.scale c (F64.cos np_cos (F64.scale k t))) 0
                 = Some [c * 1]).
  { intros c k Hk0. unfold F64.scale, F64.cos.
    rewrite !first_row_ufunc, Ht. simpl. now rewrite Hk0, Hcos. }
  assert (H3 : sqrt 3 * 0 = 0) by reflexivity.
  assert (H2 : 2 * 0 = 0) by reflexivity.
  unfold F64.first_row, F64.analytic_outvar.
  cbn [app Py.get String.eqb Ascii.eqb Bool.eqb].
  unfold F64.add, F64.sub.
  repeat split.
  - rewrite (first_row_binop _ _ _ [1 / 6 * 1 + 1 / 2 * 1] [1 / 3 * 1]).
    + reflexivity.
    + rewrite (first_row_binop _ _ _ [1 / 6 * 1] [1 / 2 * 1]);
        [reflexivity | apply Hc | apply Hk, H3].
    + apply Hk, H2.
  - rewrite (first_row_binop _ _ _ [2 / 6 * 1 + 0 / 2 * 1] [1 / 3 * 1]).
    + reflexivity.
    + rewrite (first_row_binop _ _ _ [2 / 6 * 1] [0 / 2 * 1]);
        [reflexivity | apply Hc | apply Hk, H3].
    + apply Hk, H2.
  - rewrite (first_row_binop _ _ _ [1 / 6 * 1 - 1 / 2 * 1] [1 / 3 * 1]).
    + reflexivity.
    + rewrite (first_row_binop _ _ _ [1 / 6 * 1] [1 / 2 * 1]);
        [reflexivity | apply Hc | apply Hk, H3].
    + apply Hk, H2.
Qed.

Lemma forward_starts :
  nth_error (F64.forward_t) 0 = Some [0].
Proof.
  unfold F64.forward_t. apply (arange_starts _ _ _ 9999).
  vm_compute. reflexivity.
Qed.

Lemma inverse_starts :
  nth_error (F64.inverse_t) 0 = Some [0].
Proof.
  unfold F64.inverse_t. apply (arange_starts _ _ _ 999).
  vm_compute. reflexivity.
Qed.

Lemma three_updates {V} (d : Py.dict V) (z : V) :
  Py.get d "ode_x1" = None -> Py.get d "ode_x2" = None ->
  Py.get d "ode_x3" = None ->
  Py.set (Py.set (Py.set d "ode_x1" z) "ode_x2" z) "ode_x3" z
  = (d ++ [("ode_x1", z); ("ode_x2", z); ("ode_x3", z)])%list.
Proof.
  assert (Hset : forall (d : Py.dict V) k v,
             Py.get d k = None -> Py.set d k v = (d ++ [(k, v)])%list).
  { intros d0 k v. induction d0 as [| [k' v'] d0 IH]; simpl.
    - reflexivity.
    - destruct (String.eqb k' k); [discriminate |].
      intros H. now rewrite IH. }
  assert (Hget : forall (d : Py.dict V) k k' v,
             String.eqb k' k = false ->
             Py.get (d ++ [(k', v)])%list k = Py.get d k).
  { intros d0 k k' v Hne. induction d0 as [| [k0 v0] d0 IH]; simpl.
    - now rewrite Hne.
    - destruct (String.eqb k0 k); [reflexivity | exact IH]. }
  intros H1 H2 H3.
  rewrite (Hset d _ _ H1).
  rewrite (Hset _ "ode_x2"); [| rewrite Hget; [exact H2 | reflexivity]].
  rewrite (Hset _ "ode_x3");
    [| rewrite !Hget; [exact H3 | reflexivity | reflexivity]].
  now rewrite <- !app_assoc.
Qed.

(** Both sample sets of the spring-mass scripts start with these
    rows. *)
Lemma spring_first_rows (np_cos : float -> float) :
  np_cos 0 = 1 ->
  Forall (fun s =>
            F64.first_row (F64.invar s) "t" = Some [0] /\
            F64.first_row (F64.outvar s) "x1" = Some [1] /\
            F64.first_row (F64.outvar s) "x2" = Some [0] /\
            F64.first_row (F64.outvar s) "x3" = Some [-0x1p-54])
         [F64.spring_validator np_cos; F64.spring_data np_cos].
Proof.
  intros Hcos.
  apply Forall_cons; [| apply Forall_cons; [| apply Forall_nil]].
  - split; [exact forward_starts |].
    unfold F64.spring_validator. cbn [F64.outvar].
    rewrite <- (app_nil_r (F64.analytic_outvar np_cos F64.forward_t)).
    apply analytic_first_rows; [exact Hcos | exact forward_starts].
  - split; [exact inverse_starts |].
    unfold F64.spring_data. cbn [F64.outvar].
    rewrite three_updates by reflexivity.
    apply analytic_first_rows; [exact Hcos | exact inverse_starts].
Qed.

End InitialRows.

Section InitialConditionsOfTheArrays.

Import PrimFloat.
#[local] Set Warnings "-inexact-float".

(** Against C10 as stated: with [cos(0) = 1] the first entry of the
    [x3] array is [1/6 - 1/2 + 1/3] in binary64, which is [-2^-54] and
    not [0], in the validator of the forward script and in the data of
    the inverse script. *)
Lemma x3_array_starts_off_zero :
  F64.first_row (F64.outvar (F64.spring_validator F64.cos_at_zero)) "x3"
  = Some [(-0x1p-54)%float] /\
  F64.first_row (F64.outvar (F64.spring_data F64.cos_at_zero)) "x3"
  = Some [(-0x1p-54)%float] /\
  ((-0x1p-54) =? 0)%float = false.
Proof.
  pose proof (spring_first_rows F64.cos_at_zero eq_refl) as H.
  apply Forall_cons_iff in H. destruct H as [(_ & _ & _ & Hf) H].
  apply Forall_cons_iff in H. destruct H as [(_ & _ & _ & Hi) _].
  split; [exact Hf | split; [exact Hi | reflexivity]].
Qed.

(** C10, as the code has it.  The closed forms, as functions of time,
    give [x1(0) = 1], [x2(0) = 0], [x3(0) = 0] and have derivative [0]
    at [0], and these six values are the targets of the initial
    condition, for every batch size.  The arrays the two scripts
    compute start at [t = 0] with [x1 = 1] and [x2 = 0] exactly and
    with [x3 = -2^-54]: the rounded [1/6 - 1/2 + 1/3], away from the
    target [0] by one rounding error.  This holds for any cosine of the
    library with [cos(0) = 1]. *)
Theorem closed_form_starts_at_initial_conditions
  (np_cos : float -> float) (n : nat) :
  np_cos 0%float = 1%float ->
  let ic := Samples.targets (Samples.spring_IC n) in
  Forall (fun s =>
            F64.first_row (F64.invar s) "t" = Some [0%float] /\
            F64.first_row (F64.outvar s) "x1" = Some [1%float] /\
            F64.first_row (F64.outvar s) "x2" = Some [0%float] /\
            F64.first_row (F64.outvar s) "x3" = Some [(-0x1p-54)%float])
         [F64.spring_validator np_cos; F64.spring_data np_cos] /\
  (Stated.x1 0 0 = 1 /\ Stated.x2 0 0 = 0 /\ Stated.x3 0 0 = 0)%R /\
  derivable_pt_lim (Stated.x1 0) 0%R 0%R /\
  derivable_pt_lim (Stated.x2 0) 0%R 0%R /\
  derivable_pt_lim (Stated.x3 0) 0%R 0%R /\
  Py.get ic "x1" = Some 1%R /\ Py.get ic "x2" = Some 0%R /\
  Py.get ic "x3" = Some 0%R /\ Py.get ic "x1__t" = Some 0%R /\
  Py.get ic "x2__t" = Some 0%R /\ Py.get ic "x3__t" = Some 0%R.
Proof.
  intros Hcos ic. split.
  - exact (spring_first_rows np_cos Hcos).
  - exact (closed_forms_start_at_targets n).
Qed.

Lemma closed_form_starts_at_initial_conditions_witness :
  F64.cos_at_zero 0%float = 1%float /\
  Forall (fun s =>
            F64.first_row (F64.invar s) "t" = Some [0%float] /\
            F64.first_row (F64.outvar s) "x1" = Some [1%float] /\
            F64.first_row (F64.outvar s) "x2" = Some [0%float] /\
            F64.first_row (F64.outvar s) "x3" = Some [(-0x1p-54)%float])
         [F64.spring_validator F64.cos_at_zero;
          F64.spring_data F64.cos_at_zero].
Proof.
  split; [reflexivity |].
  exact (proj1 (closed_form_starts_at_initial_conditions
                  F64.cos_at_zero 10 eq_refl)).
Defined.

End InitialConditionsOfTheArrays.

(** ** Sets pinned to the initial instant *)

Section PinnedInputs.

Import Samples.
Local Open Scope R_scope.

Lemma In_repeat_iff {A} (c x : A) (n : nat) :
  (0 < n)%nat -> (In x (repeat c n) <-> x = c).
Proof.
  intros Hn. split.
  - intros H. exact (repeat_spec n c x H).
  - intros ->. destruct n as [| n]; [lia | now left].
Qed.

(** C7.  For every positive batch size and whatever the random draws,
    the sampled input of the projectile initial condition and of the
    spring-mass initial condition (the same in the forward and in the
    inverse script) has as many rows as the batch and holds one value
    of [t] only, [0]. *)
Theorem pinned_inputs_hold_one_instant (n : nat) (u : nat -> R) :
  (0 < n)%nat ->
  Forall (fun c =>
            exists ts,
              Py.get (sample_inputs c u) "t" = Some ts /\
              List.length ts = n /\
              forall x, In x ts <-> x = 0)
         [projectile_IC n; spring_IC n].
Proof.
  intros Hn.
  apply Forall_cons; [| apply Forall_cons; [| apply Forall_nil]].
  - exists (repeat 0.0 n). split; [reflexivity | split].
    + apply repeat_length.
    + intros x. rewrite (In_repeat_iff 0.0 x n Hn). split; intros ->; lra.
  - exists (repeat 0 n). split; [reflexivity | split].
    + apply repeat_length.
    + intros x. apply In_repeat_iff, Hn.
Qed.

Lemma pinned_inputs_hold_one_instant_witness :
  (0 < 10)%nat /\
  Forall (fun c =>
            exists ts,
              Py.get (sample_inputs c (fun _ => 1 / 2)) "t" = Some ts /\
              List.length ts = 10%nat /\
              forall x, In x ts <-> x = 0)
         [projectile_IC 10; spring_IC 10].
Proof.
  split.
  - lia.
  - apply (pinned_inputs_hold_one_instant 10 (fun _ => 1 / 2)). lia.
Defined.

End PinnedInputs.

(** ** Loading and plotting the validator bundle *)

Section PlottingCells.

Import Plots Stated.
Local Open Scope nat_scope.

Lemma validator_bundle_columns (n : nat) (vars : list string) (b : bundle) :
  validator_bundle n vars b -> columns n vars b.
Proof.
  intros Hb key Hkey. destruct (Hb key Hkey) as [item Hitem].
  exists 0, item. exact Hitem.
Qed.

Lemma validator_bundle_single_curves (n : nat) (vars : list string)
  (b : bundle) :
  validator_bundle n vars b -> single_curves n vars b.
Proof.
  intros Hb key Hkey. destruct (Hb key Hkey) as [item Hitem].
  exists (Array2 n 1 item). repeat split. exact Hitem.
Qed.

Lemma first_column_col (b : bundle) (key : string) (a : ndarray) :
  Py.get b key = Some a -> first_column b key = col a 0.
Proof. intros H. unfold first_column. rewrite H. now destruct a. Qed.

Lemma col0_runs (n : nat) (vars : list string) (b : bundle) (key : string) :
  columns n vars b -> In key (bundle_keys vars) ->
  exists a, (forall p, col0 b key p = (inr a, p)) /\
            shape0 a = n /\ ncols a = 1 /\ col a 0 = first_column b key.
Proof.
  intros Hb Hkey. destruct (Hb key Hkey) as (c & item & Ha).
  exists (Array1 n (fun i => item i 0)). repeat split.
  - intros p. unfold col0, lift, Py.subscript. rewrite Ha. reflexivity.
  - rewrite (first_column_col b key _ Ha). reflexivity.
Qed.

Lemma whole_runs (n : nat) (vars : list string) (b : bundle) (key : string) :
  single_curves n vars b -> In key (bundle_keys vars) ->
  exists a, (forall p, whole b key p = (inr a, p)) /\
            shape0 a = n /\ ncols a = 1 /\ col a 0 = first_column b key.
Proof.
  intros Hb Hkey. destruct (Hb key Hkey) as (a & Ha & Hn & Hc).
  exists a. repeat split; try assumption.
  - intros p. unfold whole, lift, Py.subscript. now rewrite Ha.
  - now rewrite (first_column_col b key _ Ha).
Qed.

(** Two single columns of one length give one line. *)
Lemma plot_single (n : nat) (x y : ndarray) (f l : string) (p : pyplot) :
  shape0 x = n -> shape0 y = n -> ncols x = 1 -> ncols y = 1 ->
  plot x y f l p
  = (inr tt, add_lines [{| xdata := col x 0; ydata := col y 0;
                           fmt := f; label := l |}] p).
Proof.
  intros Hx Hy Hcx Hcy. unfold plot, plot_args.
  rewrite Hx, Hy, Hcx, Hcy, Nat.eqb_refl. reflexivity.
Qed.

Ltac run_read H :=
  let a := fresh "a" in
  let Hrun := fresh "Hrun" in
  let Hn := fresh "Hn" in
  let Hc := fresh "Hc" in
  let Hcol := fresh "Hcol" in
  destruct H as (a & Hrun & Hn & Hc & Hcol).

Ltac run_cell n :=
  repeat match goal with
         | H : forall p, ?c p = _ |- context [seq_cell ?c _ ?q] =>
             unfold seq_cell at 1; rewrite (H q)
         | |- context [seq_cell (draw ?f) _ ?q] =>
             unfold seq_cell at 1; unfold draw at 1
         | |- context [seq_cell (plot ?x ?y ?f ?l) _ ?q] =>
             unfold seq_cell at 1;
             rewrite (plot_single n x y f l q) by assumption
         end.

(** C9.  Each plotting cell first loads [validator.npz] from its
    [outputs/<example>/validators/] directory.  When that file is
    missing the cell stops there with [FileNotFoundError] for that
    path, having drawn nothing.  When it holds a bundle of arrays of
    [n] rows each, as the validator writes them, the projectile cell
    draws two subplots, one per dependent variable, each with the
    predicted and the true values against [t], and the spring-mass cell
    draws on one axes the true and the predicted values of each of the
    three displacements against [t]; both then save the figure.  The
    projectile cell does so for rows of any positive width, the
    spring-mass cell also for arrays of one dimension. *)
Theorem plotting_needs_the_bundle (fs : files) (p0 : pyplot) :
  (fs projectile_path = None ->
   projectile_cell fs p0
   = (inl (Py.FileNotFoundError ("./" ++ projectile_path)), figure p0)) /\
  (fs spring_path = None ->
   spring_cell fs p0 = (inl (Py.FileNotFoundError spring_path), p0)) /\
  (forall z b n,
      fs projectile_path = Some z -> Py.get z "arr_0" = Some b ->
      Stated.columns n ["x"; "y"] b ->
      projectile_cell fs p0
      = (inr tt,
         {| figure_axes :=
              [{| index := 1;
                  lines := [curve b "t" "pred_x" "--" "x_pred";
                            curve b "t" "true_x" "" "x_true"];
                  legend := true |};
               {| index := 2;
                  lines := [curve b "t" "pred_y" "--" "y_pred";
                            curve b "t" "true_y" "" "y_true"];
                  legend := true |}];
            current := Some 2;
            saved := (saved p0 ++ ["prediction"])%list |})) /\
  (forall z b n,
      fs spring_path = Some z -> Py.get z "arr_0" = Some b ->
      Stated.single_curves n ["x1"; "x2"; "x3"] b ->
      spring_cell fs fresh
      = (inr tt,
         {| figure_axes :=
              [{| index := 1;
                  lines := [curve b "t" "true_x1" "" "True x1";
                            curve b "t" "true_x2" "" "True x2";
                            curve b "t" "true_x3" "" "True x3";
                            curve b "t" "pred_x1" "" "Pred x1";
                            curve b "t" "pred_x2" "" "Pred x2";
                            curve b "t" "pred_x3" "" "Pred x3"];
                  legend := true |}];
            current := Some 1;
            saved := ["comparison_spring_mass.png"] |})).
Proof.
  split; [| split; [| split]].
  - intros Hfs. unfold projectile_cell, seq_cell, draw, lift, load.
    change (normpath ("./outputs/projectile/validators/" ++ "validator.npz"))
      with projectile_path.
    rewrite Hfs. reflexivity.
  - intros Hfs. unfold spring_cell, seq_cell, lift, load.
    change (normpath ("outputs/spring_mass_solver/validators/"
                      ++ "validator.npz"))
      with spring_path.
    rewrite Hfs. reflexivity.
  - intros z b n Hfs Hz Hb.
    pose proof (col0_runs _ _ b "t" Hb) as Ht.
    pose proof (col0_runs _ _ b "pred_x" Hb) as Hpx.
    pose proof (col0_runs _ _ b "true_x" Hb) as Htx.
    pose proof (col0_runs _ _ b "pred_y" Hb) as Hpy.
    pose proof (col0_runs _ _ b "true_y" Hb) as Hty.
    run_read Ht; [simpl; tauto |]. run_read Hpx; [simpl; tauto |].
    run_read Htx; [simpl; tauto |]. run_read Hpy; [simpl; tauto |].
    run_read Hty; [simpl; tauto |].
    unfold projectile_cell.
    unfold seq_cell at 1. unfold draw at 1.
    unfold seq_cell at 1. unfold lift at 1. unfold load.
    change (normpath ("./outputs/projectile/validators/" ++ "validator.npz"))
      with projectile_path.
    rewrite Hfs. unfold Py.ret.
    unfold seq_cell at 1. unfold lift at 1. unfold member. rewrite Hz.
    unfold Py.ret, atleast_1d_0.
    run_cell n. unfold draw, curve.
    repeat match goal with H : col _ 0 = _ |- _ => rewrite H; clear H end.
    reflexivity.
  - intros z b n Hfs Hz Hb.
    pose proof (whole_runs _ _ b "t" Hb) as Ht.
    pose proof (whole_runs _ _ b "true_x1" Hb) as Ht1.
    pose proof (whole_runs _ _ b "true_x2" Hb) as Ht2.
    pose proof (whole_runs _ _ b "true_x3" Hb) as Ht3.
    pose proof (whole_runs _ _ b "pred_x1" Hb) as Hp1.
    pose proof (whole_runs _ _ b "pred_x2" Hb) as Hp2.
    pose proof (whole_runs _ _ b "pred_x3" Hb) as Hp3.
    run_read Ht; [simpl; tauto |]. run_read Ht1; [simpl; tauto |].
    run_read Ht2; [simpl; tauto |]. run_read Ht3; [simpl; tauto |].
    run_read Hp1; [simpl; tauto |]. run_read Hp2; [simpl; tauto |].
    run_read Hp3; [simpl; tauto |].
    unfold spring_cell.
    unfold seq_cell at 1. unfold lift at 1. unfold load.
    change (normpath ("outputs/spring_mass_solver/validators/"
                      ++ "validator.npz"))
      with spring_path.
    rewrite Hfs. unfold Py.ret.
    unfold seq_cell at 1. unfold lift at 1. unfold member. rewrite Hz.
    unfold Py.ret, atleast_1d_0.
    run_cell n. unfold draw, curve.
    repeat match goal with H : col _ 0 = _ |- _ => rewrite H; clear H end.
    reflexivity.
Qed.

(** A working directory that holds a two-row projectile bundle, as the
    validator writes it. *)
Lemma plotting_needs_the_bundle_witness :
  let a : ndarray := Array2 2 1 (fun i _ => F64.of_nat i) in
  let b : bundle :=
    [("t", a); ("pred_x", a); ("true_x", a); ("pred_y", a); ("true_y", a)] in
  let fs : files :=
    fun path => if String.eqb path projectile_path
                then Some [("arr_0", b)] else None in
  Stated.columns 2 ["x"; "y"] b /\
  (exists p,
      projectile_cell fs fresh = (inr tt, p) /\
      map (fun a => (index a, map label (lines a))) (figure_axes p)
      = [(1, ["x_pred"; "x_true"]); (2, ["y_pred"; "y_true"])]) /\
  spring_cell fs fresh = (inl (Py.FileNotFoundError spring_path), fresh).
Proof.
  intros a b fs.
  assert (Hb : Stated.columns 2 ["x"; "y"] b).
  { intros key Hkey. simpl in Hkey.
    repeat (destruct Hkey as [<- | Hkey];
            [exists 0, (fun i _ => F64.of_nat i); reflexivity |]).
    contradiction. }
  pose proof (plotting_needs_the_bundle fs fresh) as (_ & Hs & Hp & _).
  split; [exact Hb | split].
  - eexists. split.
    + exact (Hp [("arr_0", b)] b 2 eq_refl eq_refl Hb).
    + reflexivity.
  - apply Hs. reflexivity.
Defined.

End PlottingCells.

(** ** The builder at the edges of its input *)

Section TupleShapes.

Import Sym SpringMassOde.

Variable sympify : Py.value -> option expr.

(** X1.  A [k] of fewer than four entries or an [m] of fewer than three
    makes construction raise [IndexError], whatever the entries are and
    whatever the library would say of them: the tuples are indexed
    before any coefficient is looked at. *)
Theorem short_tuple_raises_IndexError (k m : list Py.value) :
  (List.length k < 4)%nat \/ (List.length m < 3)%nat ->
  SpringMass sympify k m = inl Py.IndexError.
Proof.
  intros H.
  destruct k as [| k1 [| k2 [| k3 [| k4 k']]]]; try reflexivity.
  destruct m as [| m1 [| m2 [| m3 m']]]; try reflexivity.
  simpl in H. lia.
Qed.

(** X2.  Construction reads the first four entries of [k] and the
    first three of [m] and nothing after them. *)
Theorem extra_entries_are_ignored (k m : list Py.value) :
  SpringMass sympify k m = SpringMass sympify (firstn 4 k) (firstn 3 m).
Proof.
  destruct k as [| k1 [| k2 [| k3 [| k4 k']]]]; try reflexivity.
  destruct m as [| m1 [| m2 [| m3 m']]]; reflexivity.
Qed.

(** X3.  In whatever construction returns, the coupling springs [k2]
    and [k3] cancel in the sum of the three residuals: the sum is the
    three inertia terms plus the pull of the two wall springs [k1] and
    [k4]. *)
Theorem coupling_cancels_in_the_sum
  (k1 k2 k3 k4 m1 m2 m3 : Py.value) (eqs : Py.dict expr) :
  SpringMass sympify [k1; k2; k3; k4] [m1; m2; m3] = inr eqs ->
  exists K1 K4 M1 M2 M3 e1 e2 e3,
    operand sympify (convert k1) = inr K1 /\
    operand sympify (convert k4) = inr K4 /\
    operand sympify (convert m1) = inr M1 /\
    operand sympify (convert m2) = inr M2 /\
    operand sympify (convert m3) = inr M3 /\
    eqs = [("ode_x1", e1); ("ode_x2", e2); ("ode_x3", e3)] /\
    forall (rho : env) (t : R),
      (eval rho e1 t + eval rho e2 t + eval rho e3 t
       = eval rho M1 t * rho "x1" 2%nat t
         + eval rho M2 t * rho "x2" 2%nat t
         + eval rho M3 t * rho "x3" 2%nat t
         + eval rho K1 t * rho "x1" 0%nat t
         + eval rho K4 t * rho "x3" 0%nat t)%R.
Proof.
  intros Hr.
  destruct (SpringMass_inr sympify _ _ _ _ _ _ _ _ Hr)
    as (K1 & K2 & K3 & K4 & M1 & M2 & M3 & Hops & ->).
  repeat match goal with
         | H : Forall2 _ (_ :: _) (_ :: _) |- _ =>
             apply Forall2_cons_iff in H; destruct H as [? H]
         end.
  exists K1, K4, M1, M2, M3. do 3 eexists.
  repeat (split; [eassumption || reflexivity |]).
  intros rho t. cbn [eval]. ring.
Qed.

End TupleShapes.

Section TupleShapesExamples.

Import Sym SpringMassOde.

Lemma short_tuple_raises_IndexError_witness :
  SpringMass (fun _ => None) [Py.Int 2; Py.Int 1; Py.Bool true] [Py.None]
  = inl Py.IndexError.
Proof.
  apply (short_tuple_raises_IndexError (fun _ => None)). left. simpl. lia.
Defined.

Lemma coupling_cancels_in_the_sum_witness :
  exists eqs, SpringMass sympify_scalars k_inverse m_inverse = inr eqs /\
  exists K1 K4 M1 M2 M3 e1 e2 e3,
    operand sympify_scalars (convert (Py.Int 2)) = inr K1 /\
    operand sympify_scalars (convert (Py.Str "k4")) = inr K4 /\
    operand sympify_scalars (convert (Py.Str "m1")) = inr M1 /\
    operand sympify_scalars (convert (Py.Int 1)) = inr M2 /\
    operand sympify_scalars (convert (Py.Int 1)) = inr M3 /\
    eqs = [("ode_x1", e1); ("ode_x2", e2); ("ode_x3", e3)].
Proof.
  eexists. split; [reflexivity |].
  destruct (coupling_cancels_in_the_sum sympify_scalars
              (Py.Int 2) (Py.Int 1) (Py.Int 1) (Py.Str "k4")
              (Py.Str "m1") (Py.Int 1) (Py.Int 1) _ eq_refl)
    as (K1 & K4 & M1 & M2 & M3 & e1 & e2 & e3 & H1 & H4 & H5 & H6 & H7 & He & _).
  exists K1, K4, M1, M2, M3, e1, e2, e3. repeat (split; [assumption |]).
  exact He.
Defined.

End TupleShapesExamples.

(** ** The inverse problem on the analytic data *)

Section InverseProblem.

Import Sym SpringMassOde Reference.
Local Open Scope R_scope.

Lemma steady_derivative (a : R) (n : nat) (t : R) :
  derivable_pt_lim (steady a n) t (steady a (S n) t).
Proof.
  apply (derivable_pt_lim_eq (fct_cte (steady a n t)) _ t 0).
  - intros y. destruct n; reflexivity.
  - reflexivity.
  - apply derivable_pt_lim_const.
Qed.

Lemma inverse_env_consistent (a b : R) : consistent (inverse_env a b).
Proof.
  intros f n t. unfold inverse_env.
  destruct (String.eqb f "m1"); [apply steady_derivative |].
  destruct (String.eqb f "k4"); [apply steady_derivative |].
  apply solution_consistent.
Qed.

(** An instant at which the third mass is away from equilibrium. *)
Lemma x3_off_equilibrium : 0 < Stated.x3 0 (PI / sqrt 3).
Proof.
  assert (Hs : sqrt 3 <> 0).
  { intros E. pose proof sqrt3_sqr as H. rewrite E in H. lra. }
  rewrite (proj1 (x3_orders _)).
  replace (sqrt 3 * (PI / sqrt 3)) with PI by (field; exact Hs).
  rewrite cos_PI, cos_2a_cos.
  set (c := cos (PI / sqrt 3)). nra.
Qed.

(** X4.  The inverse call returns three residuals.  Read on the
    analytic displacements with [m1] and [k4] held at steady values
    [a] and [b], the residuals vanish at every instant exactly when
    [a = 1] and [b = 2], the values the data was produced with. *)
Theorem data_determines_m1_and_k4
  (sympify : Py.value -> option expr) (a b : R) :
  exists e1 e2 e3,
    SpringMass sympify k_inverse m_inverse
    = inr [("ode_x1", e1); ("ode_x2", e2); ("ode_x3", e3)] /\
    consistent (inverse_env a b) /\
    ((forall t,
         eval (inverse_env a b) e1 t = 0 /\
         eval (inverse_env a b) e2 t = 0 /\
         eval (inverse_env a b) e3 t = 0) <->
     a = 1 /\ b = 2).
Proof.
  do 3 eexists. split; [| split].
  - apply SpringMass_returns; reflexivity.
  - apply inverse_env_consistent.
  - assert (Hev : forall t,
               eval (inverse_env a b)
                 (Sub (Add (Mul (Func "m1") (Derivative "x1" 2))
                           (Mul (Number (Integer 2)) (Func "x1")))
                      (Mul (Number (Integer 1)) (Sub (Func "x2") (Func "x1")))) t
               = (a - 1) * Stated.x1 2 t /\
               eval (inverse_env a b)
                 (Sub (Add (Mul (Number (Integer 1)) (Derivative "x2" 2))
                           (Mul (Number (Integer 1)) (Sub (Func "x2") (Func "x1"))))
                      (Mul (Number (Integer 1)) (Sub (Func "x3") (Func "x2")))) t
               = 0 /\
               eval (inverse_env a b)
                 (Add (Add (Mul (Number (Integer 1)) (Derivative "x3" 2))
                           (Mul (Number (Integer 1)) (Sub (Func "x3") (Func "x2"))))
                      (Mul (Func "k4") (Func "x3"))) t
               = (b - 2) * Stated.x3 0 t).
    { intros t. cbn [eval number_val].
      change (inverse_env a b "m1" 0%nat t) with a.
      change (inverse_env a b "k4" 0%nat t) with b.
      change (inverse_env a b "x1") with Stated.x1.
      change (inverse_env a b "x2") with Stated.x2.
      change (inverse_env a b "x3") with Stated.x3.
      destruct (x1_orders t) as [-> ->].
      destruct (x2_orders t) as [-> ->].
      destruct (x3_orders t) as [-> ->].
      repeat split; lra. }
    split.
    + intros H. split.
      * destruct (H 0) as [H1 _]. rewrite (proj1 (Hev 0)) in H1.
        rewrite (proj2 (x1_orders 0)), !Rmult_0_r, cos_0 in H1. lra.
      * destruct (H (PI / sqrt 3)) as (_ & _ & H3).
        rewrite (proj2 (proj2 (Hev _))) in H3.
        pose proof x3_off_equilibrium as Hpos.
        apply Rmult_integral in H3. destruct H3 as [H3 | H3]; lra.
    + intros [-> ->] t. destruct (Hev t) as (-> & -> & ->).
      repeat split; ring.
Qed.

End InverseProblem.

(** ** The projectile reference solution *)

Section ProjectileFlight.

Import Sym ProjectileEqn Samples Reference.
Local Open Scope R_scope.

Lemma linear_derivative (c d : R) (t : R) :
  derivable_pt_lim (fun t => c * t + d) t c.
Proof.
  apply (derivable_pt_lim_eq (mult_real_fct c id + fct_cte d)%F _ t (c * 1 + 0)).
  - intros y. reflexivity.
  - ring.
  - apply derivable_pt_lim_plus.
    + apply derivable_pt_lim_scal, derivable_pt_lim_id.
    + apply derivable_pt_lim_const.
Qed.

Lemma parabola_derivative (c k : R) (t : R) :
  derivable_pt_lim (fun t => c * t - k * t ^ 2) t (c - 2 * k * t).
Proof.
  apply (derivable_pt_lim_eq
           (mult_real_fct c id - mult_real_fct k (fun y => y ^ 2))%F
           _ t (c * 1 - k * (INR 2 * t ^ pred 2))).
  - intros y. reflexivity.
  - simpl. ring.
  - apply derivable_pt_lim_minus.
    + apply derivable_pt_lim_scal, derivable_pt_lim_id.
    + apply derivable_pt_lim_scal, derivable_pt_lim_pow.
Qed.

Lemma flight_consistent : consistent flight.
Proof.
  intros f n t. unfold flight.
  destruct (String.eqb f "x"); [| destruct (String.eqb f "y")].
  - destruct n as [| [| n]]; simpl.
    + apply (derivable_pt_lim_eq (fun t => v_o * cos theta * t + 0) _ t
               (v_o * cos theta)); [intros y; cbn [flight_x flight_y]; ring | reflexivity |].
      apply linear_derivative.
    + apply derivable_pt_lim_const.
    + apply (derivable_pt_lim_const 0).
  - destruct n as [| [| [| n]]]; simpl.
    + apply (derivable_pt_lim_eq
               (fun t => v_o * sin theta * t - 0.5 * 9.81 * t ^ 2) _ t
               (v_o * sin theta - 2 * (0.5 * 9.81) * t));
        [intros y; cbn [flight_y]; ring | lra |].
      apply parabola_derivative.
    + apply (derivable_pt_lim_eq
               (fun t => - 9.81 * t + v_o * sin theta) _ t (- 9.81));
        [intros y; cbn [flight_y]; lra | reflexivity |].
      apply linear_derivative.
    + apply derivable_pt_lim_const.
    + apply (derivable_pt_lim_const 0).
  - apply (derivable_pt_lim_const 0).
Qed.

(** X5.  The formulas of the projectile validator, read as functions
    of real time, are a solution of the problem the constraints pose:
    they and their derivatives give both residuals the value the
    interior constraint asks for ([0] and [-9.81]) at every instant, and
    they give position and velocity of the initial condition at
    [t = 0]. *)
Theorem validator_formulas_meet_the_constraints (n_ic n_int : nat) :
  consistent flight /\
  (exists ex ey tx ty,
      ProjectileEquation = [("ode_x", ex); ("ode_y", ey)] /\
      targets (projectile_interior n_int) = [("ode_x", tx); ("ode_y", ty)] /\
      forall t, eval flight ex t = tx /\ eval flight ey t = ty) /\
  targets (projectile_IC n_ic)
  = [("x", flight "x" 0%nat 0); ("y", flight "y" 0%nat 0);
     ("x__t", flight "x" 1%nat 0); ("y__t", flight "y" 1%nat 0)].
Proof.
  split; [exact flight_consistent | split].
  - do 4 eexists. split; [reflexivity | split; [reflexivity |]].
    intros t. cbn [eval diff_n diff].
    change (flight "x" 2%nat t) with 0.
    change (flight "y" 2%nat t) with (- 9.81).
    split; [lra | reflexivity].
  - unfold projectile_IC. cbn [targets].
    change (flight "x" 0%nat 0) with (v_o * cos theta * 0).
    change (flight "y" 0%nat 0)
      with (v_o * sin theta * 0 - 0.5 * 9.81 * 0 ^ 2).
    change (flight "x" 1%nat 0) with (v_o * cos theta).
    change (flight "y" 1%nat 0) with (v_o * sin theta - 9.81 * 0).
    repeat (apply f_equal2; [apply f_equal; simpl; lra |]).
    reflexivity.
Qed.

End ProjectileFlight.

(** ** Outcomes of the plotting cells *)

Section CellOutcomes.

Import Plots Reference.
Local Open Scope nat_scope.

Lemma fst_seq_draw {B} (f : pyplot -> pyplot) (k : unit -> cell B) (p : pyplot) :
  fst (seq_cell (draw f) k p) = fst (k tt (f p)).
Proof. reflexivity. Qed.

Lemma fst_seq_lift {A B} (c : Py.result A) (k : A -> cell B) (p : pyplot) :
  fst (seq_cell (lift c) k p)
  = match c with
    | inl e => inl e
    | inr a => fst (k a p)
    end.
Proof. destruct c; reflexivity. Qed.

Lemma fst_seq_plot {B} (x y : ndarray) (f l : string) (k : unit -> cell B)
  (p : pyplot) :
  fst (seq_cell (plot x y f l) k p)
  = match plot_args x y f l with
    | inl e => inl e
    | inr ls => fst (k tt (add_lines ls p))
    end.
Proof.
  unfold seq_cell, plot. destruct (plot_args x y f l); reflexivity.
Qed.

Lemma plot_args_cases (x y : ndarray) (f l : string) :
  (mismatchedb x y = true /\ plot_args x y f l = inl Py.ValueError) \/
  (mismatchedb x y = false /\ exists ls, plot_args x y f l = inr ls).
Proof.
  unfold mismatchedb, plot_args.
  destruct (negb (shape0 x =? shape0 y)); [left; split; reflexivity |].
  cbn [orb].
  destruct ((1 <? ncols x) && (1 <? ncols y)
            && negb (ncols x =? ncols y))%bool;
    [left; split; reflexivity | right; split; [reflexivity |]].
  destruct ((ncols x =? 0) || (ncols y =? 0))%bool; eexists; reflexivity.
Qed.

Lemma mismatchedb_spec (x y : ndarray) :
  mismatchedb x y = true <-> mismatched x y.
Proof.
  unfold mismatchedb, mismatched.
  rewrite Bool.orb_true_iff, !Bool.andb_true_iff, !Bool.negb_true_iff,
    !Nat.eqb_neq, !Nat.ltb_lt.
  tauto.
Qed.

(** What the first failure of a sequence of plot statements is. *)
Lemma first_failure_Some (read : string -> Py.result ndarray)
  (plots : list (string * string)) (e : Py.exn) :
  first_failure read plots = Some e ->
  exists xkey ykey,
    In (xkey, ykey) plots /\
    (read xkey = inl e \/
     (exists x, read xkey = inr x /\ read ykey = inl e) \/
     (exists x y, read xkey = inr x /\ read ykey = inr y /\
                  e = Py.ValueError /\ mismatched x y)).
Proof.
  induction plots as [| [xkey ykey] plots IH]; simpl; [discriminate |].
  destruct (read xkey) as [ex | x] eqn:Hx.
  { intros H. inversion H; subst. exists xkey, ykey. auto. }
  destruct (read ykey) as [ey | y] eqn:Hy.
  { intros H. inversion H; subst. exists xkey, ykey.
    split; [auto |]. right. left. exists x. auto. }
  destruct (mismatchedb x y) eqn:Hm.
  { intros H. inversion H; subst. exists xkey, ykey.
    split; [auto |]. right. right. exists x, y.
    apply mismatchedb_spec in Hm. auto. }
  intros H. destruct (IH H) as (xk & yk & Hin & Hcase).
  exists xk, yk. auto.
Qed.

Lemma first_failure_None (read : string -> Py.result ndarray)
  (plots : list (string * string)) :
  first_failure read plots = None ->
  forall xkey ykey,
    In (xkey, ykey) plots ->
    exists x y, read xkey = inr x /\ read ykey = inr y /\ ~ mismatched x y.
Proof.
  induction plots as [| [xk yk] plots IH]; simpl; [contradiction |].
  destruct (read xk) as [ex | x] eqn:Hx; [discriminate |].
  destruct (read yk) as [ey | y] eqn:Hy; [discriminate |].
  destruct (mismatchedb x y) eqn:Hm; [discriminate |].
  intros H xkey ykey [Heq | Hin].
  - inversion Heq; subst. exists x, y. repeat split; try assumption.
    rewrite <- mismatchedb_spec, Hm. discriminate.
  - exact (IH H xkey ykey Hin).
Qed.

Lemma read_whole_inl (b : bundle) (key : string) (e : Py.exn) :
  read_whole b key = inl e -> e = Py.KeyError key /\ Py.get b key = None.
Proof.
  unfold read_whole, Py.subscript.
  destruct (Py.get b key); [discriminate |].
  intros H. inversion H. auto.
Qed.

Lemma read_whole_inr (b : bundle) (key : string) (a : ndarray) :
  read_whole b key = inr a -> Py.get b key = Some a.
Proof.
  unfold read_whole, Py.subscript.
  destruct (Py.get b key); [| discriminate].
  intros H. inversion H. reflexivity.
Qed.

Lemma read_column0_inl (b : bundle) (key : string) (e : Py.exn) :
  read_column0 b key = inl e ->
  (e = Py.KeyError key /\ Py.get b key = None) \/
  (exists a, e = Py.IndexError /\ Py.get b key = Some a /\ unsliceable a).
Proof.
  unfold read_column0, Py.subscript.
  destruct (Py.get b key) as [a |]; simpl.
  - intros H. right. exists a. destruct a as [n item | n c item]; simpl in H.
    + inversion H. simpl. auto.
    + destruct c; simpl in H; [| discriminate]. inversion H. simpl. auto.
  - intros H. inversion H. auto.
Qed.

Lemma read_column0_inr (b : bundle) (key : string) (a : ndarray) :
  read_column0 b key = inr a ->
  exists a', Py.get b key = Some a' /\ shape0 a' = shape0 a /\ ncols a = 1.
Proof.
  unfold read_column0, Py.subscript.
  destruct (Py.get b key) as [a' |]; simpl; [| discriminate].
  intros H. exists a'. destruct a' as [n item | n c item]; simpl in H.
  - discriminate.
  - destruct c; simpl in H; [discriminate |]. inversion H. auto.
Qed.

Ltac next_statement :=
  first
    [ rewrite fst_seq_draw
    | rewrite fst_seq_lift; cbv beta iota;
      try lazymatch goal with
          | |- context [match ?c with inl _ => inl _ | inr _ => _ end] =>
              destruct c eqn:?; [reflexivity |]
          end
    | rewrite fst_seq_plot;
      lazymatch goal with
      | |- context [plot_args ?x ?y ?f ?l] =>
          let Hm := fresh "Hm" in
          let Hp := fresh "Hp" in
          let ls := fresh "ls" in
          destruct (plot_args_cases x y f l) as [[Hm Hp] | [Hm [ls Hp]]];
          rewrite Hp, Hm; [reflexivity |]
      end ];
  cbv beta iota.

(** X6.  The spring-mass plotting cell, on an archive whose [arr_0] is
    a dictionary of arrays of one or two dimensions, ends in exactly
    one of these ways, decided in this order: [FileNotFoundError] for
    its path when the file is missing; [AttributeError] when the
    archive has no member [arr_0]; then, at the first of its six plot
    statements that fails, [KeyError] for the array the dictionary
    lacks ([t] before the displacement) or, with both arrays read,
    [ValueError] when they differ in their first dimension or have
    several columns each but not equally many; completion when all six
    pairs are there and match. *)
Theorem spring_cell_outcome (fs : files) (p0 : pyplot) :
  fst (spring_cell fs p0)
  = match fs Stated.spring_path with
    | None => inl (Py.FileNotFoundError Stated.spring_path)
    | Some z =>
        match Py.get z "arr_0" with
        | None => inl (Py.AttributeError "arr_0")
        | Some b =>
            match first_failure (read_whole b) spring_plots with
            | Some e => inl e
            | None => inr tt
            end
        end
    end /\
  (forall b e,
      first_failure (read_whole b) spring_plots = Some e ->
      exists xkey ykey,
        In (xkey, ykey) spring_plots /\
        ((exists key, (key = xkey \/ key = ykey) /\
                      e = Py.KeyError key /\ Py.get b key = None) \/
         (exists x y, e = Py.ValueError /\
                      Py.get b xkey = Some x /\ Py.get b ykey = Some y /\
                      mismatched x y))) /\
  (forall b,
      first_failure (read_whole b) spring_plots = None ->
      forall xkey ykey,
        In (xkey, ykey) spring_plots ->
        exists x y, Py.get b xkey = Some x /\ Py.get b ykey = Some y /\
                    ~ mismatched x y).
Proof.
  split; [| split].
  - unfold spring_cell. rewrite fst_seq_lift. unfold load.
    change (normpath ("outputs/spring_mass_solver/validators/"
                      ++ "validator.npz"))
      with Stated.spring_path.
    destruct (fs Stated.spring_path) as [z |]; [| reflexivity].
    unfold Py.ret. rewrite fst_seq_lift. unfold member.
    destruct (Py.get z "arr_0") as [b |]; [| reflexivity].
    unfold Py.ret, atleast_1d_0, whole.
    cbn [first_failure spring_plots].
    change (Py.subscript b) with (read_whole b).
    repeat next_statement.
    reflexivity.
  - intros b e H.
    destruct (first_failure_Some _ _ _ H)
      as (xkey & ykey & Hin & [Hx | [(x & Hx & Hy) | (x & y & Hx & Hy & -> & Hm)]]).
    + exists xkey, ykey. split; [exact Hin |]. left. exists xkey.
      destruct (read_whole_inl _ _ _ Hx). auto.
    + exists xkey, ykey. split; [exact Hin |]. left. exists ykey.
      destruct (read_whole_inl _ _ _ Hy). auto.
    + exists xkey, ykey. split; [exact Hin |]. right. exists x, y.
      apply read_whole_inr in Hx, Hy. auto.
  - intros b H xkey ykey Hin.
    destruct (first_failure_None _ _ H xkey ykey Hin) as (x & y & Hx & Hy & Hm).
    exists x, y. apply read_whole_inr in Hx, Hy. auto.
Qed.

(** X7.  The projectile plotting cell, on an archive whose [arr_0] is a
    dictionary of arrays of one or two dimensions, ends in exactly one
    of these ways, decided in this order: [FileNotFoundError] for its
    path when the file is missing; [AttributeError] when the archive
    has no member [arr_0]; then, at the first of its four plot
    statements that fails, [KeyError] for the array the dictionary
    lacks, [IndexError] for the array that has one dimension only or no
    column ([t] before the dependent variable in both cases) or, with
    both columns sliced, [ValueError] when the two arrays differ in
    their number of rows; completion when all four pairs can be sliced
    and match. *)
Theorem projectile_cell_outcome (fs : files) (p0 : pyplot) :
  fst (projectile_cell fs p0)
  = match fs Stated.projectile_path with
    | None => inl (Py.FileNotFoundError ("./" ++ Stated.projectile_path))
    | Some z =>
        match Py.get z "arr_0" with
        | None => inl (Py.AttributeError "arr_0")
        | Some b =>
            match first_failure (read_column0 b) projectile_plots with
            | Some e => inl e
            | None => inr tt
            end
        end
    end /\
  (forall b e,
      first_failure (read_column0 b) projectile_plots = Some e ->
      exists xkey ykey,
        In (xkey, ykey) projectile_plots /\
        ((exists key, (key = xkey \/ key = ykey) /\
                      e = Py.KeyError key /\ Py.get b key = None) \/
         (exists key a, (key = xkey \/ key = ykey) /\
                        e = Py.IndexError /\ Py.get b key = Some a /\
                        unsliceable a) \/
         (exists x y, e = Py.ValueError /\
                      Py.get b xkey = Some x /\ Py.get b ykey = Some y /\
                      shape0 x <> shape0 y))) /\
  (forall b,
      first_failure (read_column0 b) projectile_plots = None ->
      forall xkey ykey,
        In (xkey, ykey) projectile_plots ->
        exists x y, Py.get b xkey = Some x /\ Py.get b ykey = Some y /\
                    ~ unsliceable x /\ ~ unsliceable y /\
                    shape0 x = shape0 y).
Proof.
  split; [| split].
  - unfold projectile_cell. rewrite fst_seq_draw, fst_seq_lift. unfold load.
    change (normpath ("./outputs/projectile/validators/" ++ "validator.npz"))
      with Stated.projectile_path.
    destruct (fs Stated.projectile_path) as [z |]; [| reflexivity].
    unfold Py.ret. rewrite fst_seq_lift. unfold member.
    destruct (Py.get z "arr_0") as [b |]; [| reflexivity].
    unfold Py.ret, atleast_1d_0, col0.
    cbn [first_failure projectile_plots].
    repeat match goal with
           | |- context [Py.bind (Py.subscript b ?k) column0] =>
               change (Py.bind (Py.subscript b k) column0)
                 with (read_column0 b k)
           end.
    repeat next_statement.
    reflexivity.
  - intros b e H.
    destruct (first_failure_Some _ _ _ H)
      as (xkey & ykey & Hin & [Hx | [(x & Hx & Hy) | (x & y & Hx & Hy & -> & Hm)]]);
      exists xkey, ykey; (split; [exact Hin |]).
    + destruct (read_column0_inl _ _ _ Hx) as [[-> Hn] | (a & -> & Ha & Hu)].
      * left. exists xkey. auto.
      * right. left. exists xkey, a. auto.
    + destruct (read_column0_inl _ _ _ Hy) as [[-> Hn] | (a & -> & Ha & Hu)].
      * left. exists ykey. auto.
      * right. left. exists ykey, a. auto.
    + right. right.
      destruct (read_column0_inr _ _ _ Hx) as (x' & Hgx & Hsx & Hcx).
      destruct (read_column0_inr _ _ _ Hy) as (y' & Hgy & Hsy & Hcy).
      exists x', y'. repeat split; try assumption.
      rewrite Hsx, Hsy. destruct Hm as [Hm | Hm]; [exact Hm |].
      rewrite Hcx in Hm. destruct Hm as [Hm _].
      exfalso. exact (Nat.lt_irrefl _ Hm).
  - intros b H xkey ykey Hin.
    destruct (first_failure_None _ _ H xkey ykey Hin) as (x & y & Hx & Hy & Hm).
    pose proof Hx as Hx'. pose proof Hy as Hy'.
    unfold read_column0, Py.subscript in Hx', Hy'.
    destruct (Py.get b xkey) as [x' |]; [| discriminate].
    destruct (Py.get b ykey) as [y' |]; [| discriminate].
    exists x', y'. simpl in Hx', Hy'.
    destruct x' as [n item | n c item]; [discriminate |].
    destruct y' as [n' item' | n' c' item']; [discriminate |].
    simpl in Hx', Hy'.
    destruct c; [discriminate |]. destruct c'; [discriminate |].
    inversion Hx'. inversion Hy'. subst x y.
    repeat split; try discriminate.
    simpl. destruct (Nat.eq_dec n n') as [Heq | Hne]; [exact Heq |].
    exfalso. apply Hm. left. exact Hne.
Qed.

End CellOutcomes.

(** ** What the plotting cells leave on disk *)

Section SavedFigures.

Import Plots Reference.
Local Open Scope nat_scope.

Lemma saved_subplot (r c i : nat) (p : pyplot) : saved (subplot r c i p) = saved p.
Proof. reflexivity. Qed.

Lemma saved_gca (p : pyplot) : saved (snd (gca p)) = saved p.
Proof. unfold gca. destruct (current p); reflexivity. Qed.

Lemma saved_add_lines (ls : list line) (p : pyplot) :
  saved (add_lines ls p) = saved p.
Proof.
  unfold add_lines. pose proof (saved_gca p) as H.
  destruct (gca p) as [i q]. exact H.
Qed.

Lemma saved_show_legend (p : pyplot) : saved (show_legend p) = saved p.
Proof.
  unfold show_legend. pose proof (saved_gca p) as H.
  destruct (gca p) as [i q]. exact H.
Qed.

Lemma keeps_lift {A} (c : Py.result A) : keeps_files (lift c).
Proof. intros p r p' H. inversion H. reflexivity. Qed.

Lemma keeps_draw (f : pyplot -> pyplot) :
  (forall p, saved (f p) = saved p) -> keeps_files (draw f).
Proof. intros Hf p r p' H. inversion H. apply Hf. Qed.

Lemma keeps_plot (x y : ndarray) (f l : string) : keeps_files (plot x y f l).
Proof.
  intros p r p' H. unfold plot in H.
  destruct (plot_args x y f l); inversion H.
  - apply saved_gca.
  - apply saved_add_lines.
Qed.

Lemma saves_seq {A} (name : string) (c : cell A) (k : A -> cell unit) :
  keeps_files c -> (forall a, saves_on_return name (k a)) ->
  saves_on_return name (seq_cell c k).
Proof.
  intros Hc Hk p r p' H. unfold seq_cell in H.
  destruct (c p) as [[e | a] q] eqn:Hcp.
  - inversion H; subst. exact (Hc p _ _ Hcp).
  - rewrite (Hk a q r p' H), (Hc p _ _ Hcp). reflexivity.
Qed.

Lemma saves_savefig (name : string) : saves_on_return name (draw (savefig name)).
Proof. intros p r p' H. inversion H. reflexivity. Qed.

Ltac keeps :=
  first [ apply keeps_lift
        | unfold col0; apply keeps_lift
        | unfold whole; apply keeps_lift
        | apply keeps_plot
        | apply keeps_draw; intros;
          first [ reflexivity | apply saved_show_legend ] ].

(** X8.  A plotting cell writes its figure only by running to its last
    statement: when it returns, the figure's name has been added once
    to the saved files, and when it raises, at whatever statement, the
    saved files are those it started with. *)
Theorem figure_is_saved_only_on_return (fs : files) :
  saves_on_return "prediction" (projectile_cell fs) /\
  saves_on_return "comparison_spring_mass.png" (spring_cell fs).
Proof.
  split.
  - unfold projectile_cell.
    repeat (apply saves_seq; [keeps | intros]).
    apply saves_savefig.
  - unfold spring_cell.
    repeat (apply saves_seq; [keeps | intros]).
    apply saves_savefig.
Qed.

End SavedFigures.

(** ** Names across the scripts *)

Section Names.

Import Sym SpringMassOde ProjectileEqn Samples Scripts.

Lemma keys_projectile_validator :
  Py.keys (outvar projectile_validator) = ["x"; "y"].
Proof. reflexivity. Qed.

Lemma keys_spring_validator :
  Py.keys (outvar spring_validator) = ["x1"; "x2"; "x3"].
Proof.
  unfold spring_validator. cbn [outvar].
  rewrite analytic_outvar_pointwise. reflexivity.
Qed.

Lemma keys_spring_data :
  Py.keys (outvar spring_data)
  = ["x1"; "x2"; "x3"; "ode_x1"; "ode_x2"; "ode_x3"].
Proof. rewrite spring_data_outvar. reflexivity. Qed.

(** X9.  In each script every name a constraint, a validator or a
    monitor asks for is produced by the graph: a residual target names
    a key of the equations, any other target names an output of a
    network or one of its first two derivatives, and the unknown
    functions of the residuals are outputs of the networks. *)
Theorem every_requested_name_is_produced
  (sympify : Py.value -> option expr) (n : nat) :
  exists forward inverse,
    SpringMass sympify k_forward m_forward = inr forward /\
    SpringMass sympify k_inverse m_inverse = inr inverse /\
    incl (Py.keys (targets (projectile_interior n))) (Py.keys ProjectileEquation) /\
    incl (Py.keys (targets (projectile_IC n)))
         (flat_map up_to_second projectile_net_outputs) /\
    incl (Py.keys (outvar projectile_validator)) projectile_net_outputs /\
    incl (Stated.all_funcs ProjectileEquation) projectile_net_outputs /\
    incl (Py.keys (targets (spring_interior n))) (Py.keys forward) /\
    incl (Py.keys (targets (spring_IC n)))
         (flat_map up_to_second sm_net_outputs) /\
    incl (Py.keys (outvar spring_validator)) sm_net_outputs /\
    incl (Stated.all_funcs forward) sm_net_outputs /\
    incl (Py.keys (outvar spring_data)) (Py.keys inverse ++ sm_net_outputs) /\
    incl (Stated.all_funcs inverse) (sm_net_outputs ++ invert_net_outputs) /\
    incl (List.concat monitor_outputs) invert_net_outputs.
Proof.
  do 2 eexists.
  split; [apply SpringMass_returns; reflexivity |].
  split; [apply SpringMass_returns; reflexivity |].
  rewrite keys_projectile_validator, keys_spring_validator, keys_spring_data.
  unfold projectile_interior, projectile_IC, spring_interior, spring_IC,
    Py.keys.
  cbn [targets map fst].
  repeat split; intros x H; vm_compute in H; vm_compute; tauto.
Qed.

(** X10.  In the inverse script the names detached from the residual
    nodes are the three displacements with their first and second
    derivatives; every quantity the inverse residuals are computed from
    is either one of these or an output of the inverting network, and
    the two outputs of the inverting network, [m1] and [k4], are inputs
    of the residuals that are not detached. *)
Theorem only_the_unknown_parameters_stay_attached
  (sympify : Py.value -> option expr) :
  exists inverse,
    SpringMass sympify k_inverse m_inverse = inr inverse /\
    detach_names = flat_map up_to_second sm_net_outputs /\
    (forall name, In name (inputs_of inverse) ->
                  In name detach_names \/ In name invert_net_outputs) /\
    (forall name, In name invert_net_outputs ->
                  In name (inputs_of inverse) /\ ~ In name detach_names).
Proof.
  eexists.
  split; [apply SpringMass_returns; reflexivity |].
  split; [reflexivity |].
  split.
  - intros name H. vm_compute in H. vm_compute.
    repeat (destruct H as [H | H]; [subst name; tauto |]).
    contradiction.
  - intros name H. vm_compute in H.
    repeat (destruct H as [H | H];
            [subst name; split;
             [vm_compute; tauto
             | vm_compute; intros Hd;
               repeat (destruct Hd as [Hd | Hd]; [discriminate Hd |]);
               exact Hd] |]).
    contradiction.
Qed.

End Names.

(** ** Shapes and ranges of the arrays *)

Section ArrayShapes.

Import Samples Reference.
Local Open Scope R_scope.

Lemma single_column_expand_dims (v : np.vector) :
  single_column (np.expand_dims v).
Proof.
  unfold single_column, np.expand_dims. apply Forall_forall.
  intros row Hrow. apply in_map_iff in Hrow.
  destruct Hrow as (x & <- & _). reflexivity.
Qed.

Lemma single_column_ufunc (f : R -> R) (a : np.matrix) :
  single_column a -> single_column (np.ufunc f a).
Proof.
  unfold single_column, np.ufunc. intros Ha. apply Forall_forall.
  intros row Hrow. apply in_map_iff in Hrow.
  destruct Hrow as (r & <- & Hr).
  rewrite length_map. exact (proj1 (Forall_forall _ _) Ha r Hr).
Qed.

(** X11.  Every input and every target array of the projectile
    validator, of the spring-mass validator and of the data constraint
    of the inverse problem has shape [(n, 1)]: one entry in every
    row. *)
Theorem every_array_is_a_single_column :
  Forall single_column
         (Py.values (invar projectile_validator)
          ++ Py.values (outvar projectile_validator)) /\
  Forall single_column
         (Py.values (invar spring_validator)
          ++ Py.values (outvar spring_validator)) /\
  Forall single_column
         (Py.values (invar spring_data) ++ Py.values (outvar spring_data)).
Proof.
  assert (HT : single_column T_val) by apply single_column_expand_dims.
  assert (Hf : single_column forward_t) by apply single_column_expand_dims.
  assert (Hi : single_column inverse_t) by apply single_column_expand_dims.
  split; [| split].
  - unfold projectile_validator, Py.values. cbn [invar outvar map snd app].
    unfold X_val, Y_val, np.sub, np.scale, np.square.
    rewrite ufunc_ufunc, binop_ufunc.
    repeat (apply Forall_cons;
            [first [exact HT | apply single_column_ufunc, HT] |]).
    apply Forall_nil.
  - unfold spring_validator. cbn [invar outvar].
    rewrite analytic_outvar_pointwise.
    unfold Py.values. cbn [map snd app].
    repeat (apply Forall_cons;
            [first [exact Hf | apply single_column_ufunc, Hf] |]).
    apply Forall_nil.
  - rewrite spring_data_outvar. unfold spring_data. cbn [invar].
    unfold Py.values, np.full_like. cbn [map snd app].
    repeat (apply Forall_cons;
            [first [exact Hi | apply single_column_ufunc, Hi] |]).
    apply Forall_nil.
Qed.

Lemma within_bound (x b : R) : Rabs x <= b -> - b <= x <= b.
Proof. unfold Rabs. destruct (Rcase_abs x); lra. Qed.

Lemma three_cosines_bound (a b c u v w : R) :
  Rabs (a * cos u + b * cos v + c * cos w) <= Rabs a + Rabs b + Rabs c.
Proof.
  assert (H : forall k x, Rabs (k * cos x) <= Rabs k).
  { intros k x. rewrite Rabs_mult.
    assert (Hc : Rabs (cos x) <= 1).
    { apply Rabs_le. pose proof (COS_bound x). lra. }
    pose proof (Rabs_pos k). nra. }
  eapply Rle_trans; [apply Rabs_triang |].
  eapply Rle_trans; [apply Rplus_le_compat_r, Rabs_triang |].
  pose proof (H a u). pose proof (H b v). pose proof (H c w). lra.
Qed.

(** X12.  Whatever array of instants the analytic targets are computed
    on, every entry of [x1] and of [x3] lies in [[-1, 1]] and every
    entry of [x2] in [[-2/3, 2/3]]: no displacement target exceeds the
    initial displacement of the first mass. *)
Theorem analytic_targets_stay_in_range (t : np.matrix) :
  exists a1 a2 a3,
    analytic_outvar t = [("x1", a1); ("x2", a2); ("x3", a3)] /\
    Forall (Forall (fun v => -1 <= v <= 1)) a1 /\
    Forall (Forall (fun v => - (2 / 3) <= v <= 2 / 3)) a2 /\
    Forall (Forall (fun v => -1 <= v <= 1)) a3.
Proof.
  rewrite analytic_outvar_pointwise. do 3 eexists.
  split; [reflexivity |].
  assert (Hall : forall (f : R -> R) (P : R -> Prop),
             (forall x, P (f x)) -> Forall (Forall P) (np.ufunc f t)).
  { intros f P Hf. unfold np.ufunc. apply Forall_forall.
    intros row Hrow. apply in_map_iff in Hrow.
    destruct Hrow as (r & <- & _). apply Forall_forall.
    intros v Hv. apply in_map_iff in Hv. destruct Hv as (x & <- & _).
    apply Hf. }
  split; [| split]; apply Hall; intros x.
  - rewrite (proj1 (x1_orders x)).
    pose proof (three_cosines_bound (1 / 6) (1 / 2) (1 / 3)
                  x (sqrt 3 * x) (2 * x)) as H.
    rewrite (Rabs_pos_eq (1 / 6)), (Rabs_pos_eq (1 / 2)), (Rabs_pos_eq (1 / 3))
      in H by lra.
    apply within_bound. lra.
  - rewrite (proj1 (x2_orders x)).
    pose proof (three_cosines_bound (2 / 6) 0 (- (1 / 3)) x 0 (2 * x)) as H.
    rewrite Rabs_R0, (Rabs_pos_eq (2 / 6)), Rabs_Ropp, (Rabs_pos_eq (1 / 3))
      in H by lra.
    apply within_bound.
    replace (2 / 6 * cos x - 1 / 3 * cos (2 * x))
      with (2 / 6 * cos x + 0 * cos 0 + - (1 / 3) * cos (2 * x)) by ring.
    lra.
  - rewrite (proj1 (x3_orders x)).
    pose proof (three_cosines_bound (1 / 6) (- (1 / 2)) (1 / 3)
                  x (sqrt 3 * x) (2 * x)) as H.
    rewrite Rabs_Ropp, (Rabs_pos_eq (1 / 6)), (Rabs_pos_eq (1 / 2)),
      (Rabs_pos_eq (1 / 3)) in H by lra.
    apply within_bound.
    replace (1 / 6 * cos x - 1 / 2 * cos (sqrt 3 * x) + 1 / 3 * cos (2 * x))
      with (1 / 6 * cos x + - (1 / 2) * cos (sqrt 3 * x)
            + 1 / 3 * cos (2 * x)) by ring.
    lra.
Qed.

End ArrayShapes.

(** ** Failures and dependencies of the builder on full tuples *)

Section FullTuples.

Import Sym SpringMassOde Stated.

Variable sympify : Py.value -> option expr.

Lemma operand_rejected (c : Py.value) (e : Py.exn) :
  operand sympify (convert c) = inl e ->
  ~ named c /\ ~ numeric c /\ sympify c = None.
Proof.
  unfold named, numeric.
  destruct c; simpl; try discriminate;
    (destruct (sympify _) eqn:E; [discriminate |]);
    intros _; repeat split; try discriminate;
    intros [H | H]; discriminate H.
Qed.

(** X13.  On a [k] of four entries and an [m] of three, construction
    raises exactly when some coefficient is neither a [str] nor an
    [int] or [float] and the library rejects it as an operand, and what
    it raises is then [TypeError]. *)
Theorem full_tuples_fail_only_by_TypeError
  (k1 k2 k3 k4 m1 m2 m3 : Py.value) (e : Py.exn) :
  SpringMass sympify [k1; k2; k3; k4] [m1; m2; m3] = inl e <->
  e = Py.TypeError /\
  exists c, In c [k1; k2; k3; k4; m1; m2; m3] /\
            ~ named c /\ ~ numeric c /\ sympify c = None.
Proof.
  split.
  - intros Hr.
    assert (Hbad : exists c, In c [k1; k2; k3; k4; m1; m2; m3] /\
                             operand sympify (convert c) = inl Py.TypeError).
    { destruct (operand_cases sympify (convert k1)) as [[K1 E1] | E1];
        [| exists k1; simpl; tauto].
      destruct (operand_cases sympify (convert k2)) as [[K2 E2] | E2];
        [| exists k2; simpl; tauto].
      destruct (operand_cases sympify (convert k3)) as [[K3 E3] | E3];
        [| exists k3; simpl; tauto].
      destruct (operand_cases sympify (convert k4)) as [[K4 E4] | E4];
        [| exists k4; simpl; tauto].
      destruct (operand_cases sympify (convert m1)) as [[M1 E5] | E5];
        [| exists m1; simpl; tauto].
      destruct (operand_cases sympify (convert m2)) as [[M2 E6] | E6];
        [| exists m2; simpl; tauto].
      destruct (operand_cases sympify (convert m3)) as [[M3 E7] | E7];
        [| exists m3; simpl; tauto].
      rewrite (SpringMass_returns sympify _ _ _ _ _ _ _ _ _ _ _ _ _ _
                 E1 E2 E3 E4 E5 E6 E7) in Hr.
      discriminate Hr. }
    destruct Hbad as (c & Hin & Hc).
    rewrite (SpringMass_raises sympify _ _ _ _ _ _ _ c Hin Hc) in Hr.
    split; [now inversion Hr |].
    exists c. split; [exact Hin | exact (operand_rejected c _ Hc)].
  - intros (-> & c & Hin & Hs & Hn & Hnone).
    apply (SpringMass_raises sympify _ _ _ _ _ _ _ c Hin).
    rewrite (convert_other c Hs Hn). simpl. now rewrite Hnone.
Qed.

(** X14.  Each residual depends on the coefficient of its own mass and
    on the two springs attached to it, and on nothing else: two
    constructions that return and agree on [m1], [k1], [k2] have the
    same [ode_x1]; on [m2], [k2], [k3] the same [ode_x2]; on [m3],
    [k3], [k4] the same [ode_x3]. *)
Theorem each_residual_is_local
  (k1 k2 k3 k4 m1 m2 m3 k1' k2' k3' k4' m1' m2' m3' : Py.value)
  (eqs eqs' : Py.dict expr) :
  SpringMass sympify [k1; k2; k3; k4] [m1; m2; m3] = inr eqs ->
  SpringMass sympify [k1'; k2'; k3'; k4'] [m1'; m2'; m3'] = inr eqs' ->
  (m1 = m1' -> k1 = k1' -> k2 = k2' ->
   Py.get eqs "ode_x1" = Py.get eqs' "ode_x1") /\
  (m2 = m2' -> k2 = k2' -> k3 = k3' ->
   Py.get eqs "ode_x2" = Py.get eqs' "ode_x2") /\
  (m3 = m3' -> k3 = k3' -> k4 = k4' ->
   Py.get eqs "ode_x3" = Py.get eqs' "ode_x3").
Proof.
  intros Hr Hr'.
  destruct (SpringMass_inr sympify _ _ _ _ _ _ _ _ Hr)
    as (K1 & K2 & K3 & K4 & M1 & M2 & M3 & Hops & ->).
  destruct (SpringMass_inr sympify _ _ _ _ _ _ _ _ Hr')
    as (K1' & K2' & K3' & K4' & M1' & M2' & M3' & Hops' & ->).
  repeat match goal with
         | H : Forall2 _ (_ :: _) (_ :: _) |- _ =>
             apply Forall2_cons_iff in H; destruct H as [? H]
         end.
  repeat split; intros; subst;
    repeat match goal with
           | H1 : operand sympify ?c = inr ?a,
             H2 : operand sympify ?c = inr ?b |- _ =>
               rewrite H1 in H2; inversion H2; subst; clear H2
           end;
    reflexivity.
Qed.

End FullTuples.

Section FullTuplesExamples.

Import Sym SpringMassOde Stated.

Lemma each_residual_is_local_witness :
  exists eqs eqs',
    SpringMass sympify_scalars k_forward m_forward = inr eqs /\
    SpringMass sympify_scalars k_inverse m_inverse = inr eqs' /\
    Py.get eqs "ode_x2" = Py.get eqs' "ode_x2".
Proof.
  do 2 eexists. split; [reflexivity | split; [reflexivity |]].
  exact (proj1 (proj2 (each_residual_is_local sympify_scalars
                         (Py.Int 2) (Py.Int 1) (Py.Int 1) (Py.Int 2)
                         (Py.Int 1) (Py.Int 1) (Py.Int 1)
                         (Py.Int 2) (Py.Int 1) (Py.Int 1) (Py.Str "k4")
                         (Py.Str "m1") (Py.Int 1) (Py.Int 1)
                         _ _ eq_refl eq_refl))
           eq_refl eq_refl eq_refl).
Defined.

End FullTuplesExamples.
